(** * XMLHttpRequestOverride: a shallow embedding of the intercepted client

    The class of [src/interceptors/XMLHttpRequest/XMLHttpRequestOverride.ts]
    is embedded as a record of its fields and one Rocq function per method,
    with explicit state passing: a method that mutates [this] takes the
    instance and returns the updated instance.

    What an outside observer can see of a run (the events dispatched, with
    the targets they were handed to, and the notifications given to the
    [Observer]) is collected in the ghost field [log] of the instance.
    Handlers are identified by name and are treated as observers: running a
    handler does not call back into the instance. *)

From Stdlib Require Import String Ascii List ZArith QArith Bool Lia.
Import ListNotations.
Open Scope string_scope.
Open Scope list_scope.
Open Scope Z_scope.

Set Implicit Arguments.
Set Warnings "-register-all".

(** ** Values *)

(** The JavaScript values that [response] can hold. *)
Inductive JsValue : Type :=
| JUndefined
| JNull
| JBool (b : bool)
| JNum (q : Q)
| JStr (s : string)
| JArr (items : list JsValue)
| JObj (members : list (string * JsValue))
| JBlob (text : string) (type : string)
| JBuffer (bytes : list Byte.byte).

(** JavaScript truthiness, as used by [&&] and [||]. *)
Definition truthy (v : JsValue) : bool :=
  match v with
  | JUndefined | JNull => false
  | JBool b => b
  | JNum q => negb (Qnum q =? 0)
  | JStr s => negb (s =? "")%string
  | JArr _ | JObj _ | JBlob _ _ | JBuffer _ => true
  end.

Definition is_string (v : JsValue) : bool :=
  match v with JStr _ => true | _ => false end.

(** [a || d] on an optional string: [undefined] and [''] are falsy. *)
Definition or_string (a : option string) (d : string) : string :=
  match a with
  | Some s => if (s =? "")%string then d else s
  | None => d
  end.

(** [a || d] on an optional number: [undefined] and [0] are falsy. *)
Definition or_number (a : option Z) (d : Z) : Z :=
  match a with
  | Some n => if n =? 0 then d else n
  | None => d
  end.

(** [a ?? d]. *)
Definition nullish {A : Type} (a : option A) (d : A) : A :=
  match a with Some v => v | None => d end.

(** Truthiness of an optional string. *)
Definition truthy_string (a : option string) : bool :=
  match a with
  | Some s => negb (s =? "")%string
  | None => false
  end.

(** ** Events *)

(** The keys of [InternalXMLHttpRequestEventTargetEventMap]. *)
Inductive EventName : Type :=
| readystatechange | abort_ev | error | load | loadend | loadstart
| progress | timeout_ev.

Definition EventName_eqb (a b : EventName) : bool :=
  match a, b with
  | readystatechange, readystatechange | abort_ev, abort_ev
  | error, error | load, load | loadend, loadend | loadstart, loadstart
  | progress, progress | timeout_ev, timeout_ev => true
  | _, _ => false
  end.

(** A function value. Functions are compared by identity ([===]); the
    instance's own [abort] method is a function value too. *)
Inductive Handler : Type :=
| UserFn (id : nat)
| AbortMethod.

Definition Handler_eqb (a b : Handler) : bool :=
  match a, b with
  | UserFn i, UserFn j => Nat.eqb i j
  | AbortMethod, AbortMethod => true
  | _, _ => false
  end.

(** [ProgressEventInit], as far as [createEvent] reads it. *)
Record ProgressEventInit : Type := mkInit {
  init_loaded : option Z;
  init_total : option Z
}.

(** The event object built by [createEvent]. *)
Inductive Event : Type :=
| ProgressEvent (type : EventName) (lengthComputable : bool) (loaded total : Z)
| EventPolyfill (type : EventName).

(** [progressEvents.includes(type)] in [createEvent]. *)
Definition is_progress_event (type : EventName) : bool :=
  match type with
  | error | progress | loadstart | loadend | load | timeout_ev | abort_ev => true
  | readystatechange => false
  end.

(** [createEvent(target, type, init)]; the target is the instance itself. *)
Definition createEvent (type : EventName) (init : option ProgressEventInit) : Event :=
  if is_progress_event type
  then ProgressEvent type true
         (or_number (match init with Some i => init_loaded i | None => None end) 0)
         (or_number (match init with Some i => init_total i | None => None end) 0)
  else EventPolyfill type.

(** ** Ready states *)

Definition UNSENT : Z := 0.
Definition OPENED : Z := 1.
Definition HEADERS_RECEIVED : Z := 2.
Definition LOADING : Z := 3.
Definition DONE : Z := 4.

(** [XMLHttpRequestResponseType]. *)
Inductive ResponseType : Type :=
| rt_empty | rt_arraybuffer | rt_blob | rt_document | rt_json | rt_text.

(** The mock response a resolver returns. *)
Record MockedResponse : Type := mkMock {
  m_status : option Z;
  m_statusText : option string;
  m_headers : option (list (string * string));
  m_body : option string
}.

(** ** Collaborators outside the repository's sources

    The header store ([headers-utils]), [JSON.parse] and [URL] belong to
    the host or to a library; the development is parametric in them. *)
Class Deps : Type := {
  Headers : Type;
  Headers_new : Headers;
  Headers_append : Headers -> string -> string -> Headers;
  Headers_get : Headers -> string -> option string;
  Headers_raw : Headers -> list (string * string);
  (** [objectToHeaders]; [None] stands for the [TypeError] it throws
      when the object has a name that is no header name. *)
  objectToHeaders : list (string * string) -> option Headers;
  (** [JSON.parse]; [None] stands for a thrown [SyntaxError]. *)
  JSON_parse : string -> option JsValue;
  (** [new URL(u)] with the fallback [new URL(u, window.location.href)]. *)
  URL_resolve : string -> string;
  (** The value [parseJson] gives back for a text that does not parse. *)
  unparseable : JsValue
}.

(** The isomorphic request handed to the resolver and to the observer. *)
Record IsomorphicRequest `{Deps} : Type := mkIso {
  iso_url : string;
  iso_method : string;
  iso_body : string;
  iso_headers : Headers
}.

(** The response snapshot given to [observer.emit('response', ...)]. *)
Record ResponseSnapshot `{Deps} : Type := mkSnapshot {
  snap_status : Z;
  snap_statusText : string;
  snap_headers : Headers;
  snap_body : option string
}.

(** What an observer of the instance sees: a call of [trigger] (the event
    name, [readyState] at that moment, the event object and the functions it
    was handed to, in call order) or a notification of the [Observer]. *)
Inductive Obs `{Deps} : Type :=
| Fired (name : EventName) (state : Z) (ev : Event) (targets : list Handler)
| Emitted (request : IsomorphicRequest) (snapshot : ResponseSnapshot).

Arguments mkIso {_} _ _ _ _.
Arguments mkSnapshot {_} _ _ _ _.
Arguments Fired {_} _ _ _ _.
Arguments Emitted {_} _ _.

(** A parsed XML document; the mocked path never produces one. *)
Definition Document : Type := string.

(** ** The instance *)

(** The fields of [XMLHttpRequestOverride] ([upload] is always [null] and is
    left out), and the ghost field [log]. A direct-callback slot holds
    [None] for [null]. *)
Record Instance `{Deps} : Type := mkInstance {
  _requestHeaders : Headers;
  _responseHeaders : Headers;
  _events : list (EventName * Handler);
  method : string;
  url : string;
  withCredentials : bool;
  status : Z;
  statusText : string;
  user : option string;
  password : option string;
  data : string;
  async : option bool;
  response : JsValue;
  responseText : option string;
  responseType : ResponseType;
  responseXML : option Document;
  responseURL : string;
  readyState : Z;
  onreadystatechange : option Handler;
  timeout : Z;
  onabort : option Handler;
  onerror : option Handler;
  onload : option Handler;
  onloadend : option Handler;
  onloadstart : option Handler;
  onprogress : option Handler;
  ontimeout : option Handler;
  log : list Obs
}.

Arguments mkInstance {_}.

Section Override.
Context `{D : Deps}.

(** Field updates. *)
Definition set_readyState (x : Instance) (v : Z) : Instance :=
  mkInstance (_requestHeaders x) (_responseHeaders x) (_events x) (method x)
    (url x) (withCredentials x) (status x) (statusText x) (user x) (password x) (data x) (async x) (response x) (responseText x) (responseType x)
    (responseXML x) (responseURL x) v (onreadystatechange x) (timeout x)
    (onabort x) (onerror x) (onload x) (onloadend x) (onloadstart x)
    (onprogress x) (ontimeout x) (log x).

Definition set_log (x : Instance) (v : list Obs) : Instance :=
  mkInstance (_requestHeaders x) (_responseHeaders x) (_events x) (method x)
    (url x) (withCredentials x) (status x) (statusText x) (user x) (password x) (data x) (async x) (response x) (responseText x) (responseType x)
    (responseXML x) (responseURL x) (readyState x) (onreadystatechange x)
    (timeout x) (onabort x) (onerror x) (onload x) (onloadend x)
    (onloadstart x) (onprogress x) (ontimeout x) v.

Definition set_status (x : Instance) (v : Z) : Instance :=
  mkInstance (_requestHeaders x) (_responseHeaders x) (_events x) (method x)
    (url x) (withCredentials x) v (statusText x) (user x) (password x) (data x) (async x) (response x) (responseText x) (responseType x) (responseXML x) (responseURL x) (readyState x) (onreadystatechange x) (timeout x)
    (onabort x) (onerror x) (onload x) (onloadend x) (onloadstart x)
    (onprogress x) (ontimeout x) (log x).

Definition set_statusText (x : Instance) (v : string) : Instance :=
  mkInstance (_requestHeaders x) (_responseHeaders x) (_events x) (method x)
    (url x) (withCredentials x) (status x) v (user x) (password x) (data x)
    (async x) (response x) (responseText x) (responseType x) (responseXML x)
    (responseURL x) (readyState x) (onreadystatechange x) (timeout x)
    (onabort x) (onerror x) (onload x) (onloadend x) (onloadstart x)
    (onprogress x) (ontimeout x) (log x).

Definition set_data (x : Instance) (v : string) : Instance :=
  mkInstance (_requestHeaders x) (_responseHeaders x) (_events x) (method x)
    (url x) (withCredentials x) (status x) (statusText x) (user x) (password x) v (async x) (response x) (responseText x) (responseType x)
    (responseXML x) (responseURL x) (readyState x) (onreadystatechange x)
    (timeout x) (onabort x) (onerror x) (onload x) (onloadend x)
    (onloadstart x) (onprogress x) (ontimeout x) (log x).

Definition set_response (x : Instance) (v : JsValue) : Instance :=
  mkInstance (_requestHeaders x) (_responseHeaders x) (_events x) (method x)
    (url x) (withCredentials x) (status x) (statusText x) (user x) (password x) (data x) (async x) v (responseText x) (responseType x) (responseXML x) (responseURL x) (readyState x) (onreadystatechange x) (timeout x)
    (onabort x) (onerror x) (onload x) (onloadend x) (onloadstart x)
    (onprogress x) (ontimeout x) (log x).

Definition set_responseText (x : Instance) (v : option string) : Instance :=
  mkInstance (_requestHeaders x) (_responseHeaders x) (_events x) (method x)
    (url x) (withCredentials x) (status x) (statusText x) (user x) (password x) (data x) (async x) (response x) v (responseType x) (responseXML x)
    (responseURL x) (readyState x) (onreadystatechange x) (timeout x)
    (onabort x) (onerror x) (onload x) (onloadend x) (onloadstart x)
    (onprogress x) (ontimeout x) (log x).

Definition set_responseXML (x : Instance) (v : option Document) : Instance :=
  mkInstance (_requestHeaders x) (_responseHeaders x) (_events x) (method x)
    (url x) (withCredentials x) (status x) (statusText x) (user x) (password x) (data x) (async x) (response x) (responseText x) (responseType x) v
    (responseURL x) (readyState x) (onreadystatechange x) (timeout x)
    (onabort x) (onerror x) (onload x) (onloadend x) (onloadstart x)
    (onprogress x) (ontimeout x) (log x).

Definition set_requestHeaders (x : Instance) (v : Headers) : Instance :=
  mkInstance v (_responseHeaders x) (_events x) (method x) (url x)
    (withCredentials x) (status x) (statusText x) (user x) (password x)
    (data x) (async x) (response x) (responseText x) (responseType x)
    (responseXML x) (responseURL x) (readyState x) (onreadystatechange x)
    (timeout x) (onabort x) (onerror x) (onload x) (onloadend x)
    (onloadstart x) (onprogress x) (ontimeout x) (log x).

Definition set_responseHeaders (x : Instance) (v : Headers) : Instance :=
  mkInstance (_requestHeaders x) v (_events x) (method x) (url x)
    (withCredentials x) (status x) (statusText x) (user x) (password x)
    (data x) (async x) (response x) (responseText x) (responseType x)
    (responseXML x) (responseURL x) (readyState x) (onreadystatechange x)
    (timeout x) (onabort x) (onerror x) (onload x) (onloadend x)
    (onloadstart x) (onprogress x) (ontimeout x) (log x).

Definition set_events (x : Instance) (v : list (EventName * Handler)) : Instance :=
  mkInstance (_requestHeaders x) (_responseHeaders x) v (method x) (url x)
    (withCredentials x) (status x) (statusText x) (user x) (password x)
    (data x) (async x) (response x) (responseText x) (responseType x)
    (responseXML x) (responseURL x) (readyState x) (onreadystatechange x)
    (timeout x) (onabort x) (onerror x) (onload x) (onloadend x)
    (onloadstart x) (onprogress x) (ontimeout x) (log x).

Definition set_url (x : Instance) (v : string) : Instance :=
  mkInstance (_requestHeaders x) (_responseHeaders x) (_events x) (method x)
    v (withCredentials x) (status x) (statusText x) (user x) (password x)
    (data x) (async x) (response x) (responseText x) (responseType x)
    (responseXML x) (responseURL x) (readyState x) (onreadystatechange x)
    (timeout x) (onabort x) (onerror x) (onload x) (onloadend x)
    (onloadstart x) (onprogress x) (ontimeout x) (log x).

Definition set_method (x : Instance) (v : string) : Instance :=
  mkInstance (_requestHeaders x) (_responseHeaders x) (_events x) v (url x)
    (withCredentials x) (status x) (statusText x) (user x) (password x)
    (data x) (async x) (response x) (responseText x) (responseType x)
    (responseXML x) (responseURL x) (readyState x) (onreadystatechange x)
    (timeout x) (onabort x) (onerror x) (onload x) (onloadend x)
    (onloadstart x) (onprogress x) (ontimeout x) (log x).

Definition set_async (x : Instance) (v : option bool) : Instance :=
  mkInstance (_requestHeaders x) (_responseHeaders x) (_events x) (method x)
    (url x) (withCredentials x) (status x) (statusText x) (user x) (password x) (data x) v (response x) (responseText x) (responseType x)
    (responseXML x) (responseURL x) (readyState x) (onreadystatechange x)
    (timeout x) (onabort x) (onerror x) (onload x) (onloadend x)
    (onloadstart x) (onprogress x) (ontimeout x) (log x).

Definition set_user (x : Instance) (v : option string) : Instance :=
  mkInstance (_requestHeaders x) (_responseHeaders x) (_events x) (method x)
    (url x) (withCredentials x) (status x) (statusText x) v (password x)
    (data x) (async x) (response x) (responseText x) (responseType x)
    (responseXML x) (responseURL x) (readyState x) (onreadystatechange x)
    (timeout x) (onabort x) (onerror x) (onload x) (onloadend x)
    (onloadstart x) (onprogress x) (ontimeout x) (log x).

Definition set_password (x : Instance) (v : option string) : Instance :=
  mkInstance (_requestHeaders x) (_responseHeaders x) (_events x) (method x)
    (url x) (withCredentials x) (status x) (statusText x) (user x) v (data x) (async x) (response x) (responseText x) (responseType x) (responseXML x) (responseURL x) (readyState x) (onreadystatechange x) (timeout x)
    (onabort x) (onerror x) (onload x) (onloadend x) (onloadstart x)
    (onprogress x) (ontimeout x) (log x).

Definition set_responseType (x : Instance) (v : ResponseType) : Instance :=
  mkInstance (_requestHeaders x) (_responseHeaders x) (_events x) (method x)
    (url x) (withCredentials x) (status x) (statusText x) (user x) (password x) (data x) (async x) (response x) (responseText x) v (responseXML x)
    (responseURL x) (readyState x) (onreadystatechange x) (timeout x)
    (onabort x) (onerror x) (onload x) (onloadend x) (onloadstart x)
    (onprogress x) (ontimeout x) (log x).

Definition set_onabort (x : Instance) (v : option Handler) : Instance :=
  mkInstance (_requestHeaders x) (_responseHeaders x) (_events x) (method x)
    (url x) (withCredentials x) (status x) (statusText x) (user x) (password x) (data x) (async x) (response x) (responseText x) (responseType x)
    (responseXML x) (responseURL x) (readyState x) (onreadystatechange x)
    (timeout x) v (onerror x) (onload x) (onloadend x) (onloadstart x)
    (onprogress x) (ontimeout x) (log x).

Definition set_onload (x : Instance) (v : option Handler) : Instance :=
  mkInstance (_requestHeaders x) (_responseHeaders x) (_events x) (method x)
    (url x) (withCredentials x) (status x) (statusText x) (user x) (password x) (data x) (async x) (response x) (responseText x) (responseType x)
    (responseXML x) (responseURL x) (readyState x) (onreadystatechange x)
    (timeout x) (onabort x) (onerror x) v (onloadend x) (onloadstart x)
    (onprogress x) (ontimeout x) (log x).

(** ** Methods *)

(** The direct-callback slot [this['on' + eventName]]. *)
Definition slot (x : Instance) (eventName : EventName) : option Handler :=
  match eventName with
  | readystatechange => onreadystatechange x
  | abort_ev => onabort x
  | error => onerror x
  | load => onload x
  | loadend => onloadend x
  | loadstart => onloadstart x
  | progress => onprogress x
  | timeout_ev => ontimeout x
  end.

(** The listeners of [_events] registered under [eventName], in order. *)
Definition listeners_for (x : Instance) (eventName : EventName) : list Handler :=
  map snd (filter (fun e => EventName_eqb (fst e) eventName) (_events x)).

(** The functions [trigger] calls: the direct callback when it is set, then
    the matching listeners. *)
Definition targets (x : Instance) (eventName : EventName) : list Handler :=
  match slot x eventName with
  | Some callback => callback :: listeners_for x eventName
  | None => listeners_for x eventName
  end.

(** [trigger(eventName, options)]. *)
Definition trigger (x : Instance) (eventName : EventName)
    (options : option ProgressEventInit) : Instance :=
  set_log x
    (log x ++ [Fired eventName (readyState x) (createEvent eventName options)
                 (targets x eventName)]).

(** [setReadyState(nextState)]. *)
Definition setReadyState (x : Instance) (nextState : Z) : Instance :=
  if nextState =? readyState x then x
  else
    let x := set_readyState x nextState in
    if negb (nextState =? UNSENT) then trigger x readystatechange None else x.

(** [reset()]. *)
Definition reset (x : Instance) : Instance :=
  let x := setReadyState x UNSENT in
  let x := set_status x 200 in
  let x := set_statusText x "OK" in
  let x := set_data x "" in
  let x := set_response x JNull in
  let x := set_responseText x None in
  let x := set_responseXML x None in
  let x := set_requestHeaders x Headers_new in
  set_responseHeaders x Headers_new.

(** [open(method, url, async = true, user, password)]; an argument left
    out is [None]. *)
Definition open (x : Instance) (method_ : string) (url_ : option string)
    (async_ : option bool) (user_ password_ : option string) : Instance :=
  let x := reset x in
  let x := setReadyState x OPENED in
  match url_ with
  | None =>
      let x := set_url x method_ in
      set_method x "GET"
  | Some u =>
      let x := set_url x u in
      let x := set_method x method_ in
      let x := set_async x (Some (nullish async_ true)) in
      let x := set_user x user_ in
      set_password x password_
  end.

(** [abort()]. *)
Definition abort (x : Instance) : Instance :=
  if (readyState x >? UNSENT) && (readyState x <? DONE)
  then trigger (setReadyState x UNSENT) abort_ev None
  else x.

(** [setRequestHeader(name, value)]. *)
Definition setRequestHeader (x : Instance) (name value : string) : Instance :=
  set_requestHeaders x (Headers_append (_requestHeaders x) name value).

(** [getResponseHeader(name)]; [None] is [null]. *)
Definition getResponseHeader (x : Instance) (name : string) : option string :=
  if readyState x <? HEADERS_RECEIVED then None
  else Headers_get (_responseHeaders x) name.

(** [addEventListener(name, listener)]. *)
Definition addEventListener (x : Instance) (name : EventName)
    (listener : Handler) : Instance :=
  set_events x (_events x ++ [(name, listener)]).

(** The predicate handed to [filter] in [removeEventListener]: the entries
    it holds true for are kept. *)
Definition keeps (name : EventName) (listener : Handler)
    (storedEvent : EventName * Handler) : bool :=
  negb (EventName_eqb (fst storedEvent) name)
  && negb (Handler_eqb (snd storedEvent) listener).

(** [removeEventListener(name, listener)]. *)
Definition removeEventListener (x : Instance) (name : EventName)
    (listener : Handler) : Instance :=
  set_events x (filter (keeps name listener) (_events x)).

(** Modelled from the spec: [bufferFrom] of [./utils/bufferFrom], whose
    source is not in the repository snapshot. It encodes the text into a raw
    byte buffer; a string is the sequence of the bytes of its encoding. *)
Definition bufferFrom (init : string) : list Byte.byte :=
  list_byte_of_string init.

(** Modelled from the spec: [parseJson] of [../../utils/parseJson], whose
    source is not in the repository snapshot. It parses the text as
    structured data and, when parsing fails, gives back the sentinel
    [unparseable] instead of raising. *)
Definition parseJson (data_ : string) : JsValue :=
  match JSON_parse data_ with
  | Some json => json
  | None => unparseable
  end.

(** [getResponseBody(body)]. *)
Definition getResponseBody (x : Instance) (body : option string) : JsValue :=
  let textBody := nullish body "" in
  match responseType x with
  | rt_json => parseJson textBody
  | rt_blob =>
      let blobType :=
        or_string (getResponseHeader x "content-type") "text/plain" in
      JBlob textBody blobType
  | rt_arraybuffer => JBuffer (bufferFrom textBody)
  | _ => JStr textBody
  end.

(** ** The original request of the passthrough path

    [new pureXMLHttpRequest()] is an object of the host. It is modelled by
    what the override does to it: the arguments of [open], the listeners
    added, the values assigned to its callback slots and to [timeout], the
    [setRequestHeader] calls and the body given to [send]. *)

(** A listener added to the original request: the closure of [send] that
    relays [load] onto the instance, or a listener taken from [_events]. *)
Inductive OriginalListener : Type :=
| RelayLoad
| Forwarded (listener : Handler).

Record OriginalRequest : Type := mkOriginal {
  o_method : string;
  o_url : string;
  o_async : bool;
  o_user : option string;
  o_password : option string;
  o_listeners : list (EventName * OriginalListener);
  o_onabort : option Handler;
  o_onerror : option Handler;
  o_ontimeout : option Handler;
  o_onload : option Handler;
  o_onloadstart : option Handler;
  o_onloadend : option Handler;
  o_onprogress : option Handler;
  o_onreadystatechange : option Handler;
  o_headers : list (string * string);
  o_timeout : Z;
  o_sent : option string
}.

(** [request.addEventListener(name, listener)] on the original request. *)
Definition o_addEventListener (request : OriginalRequest) (name : EventName)
    (listener : OriginalListener) : OriginalRequest :=
  mkOriginal (o_method request) (o_url request) (o_async request)
    (o_user request) (o_password request)
    (o_listeners request ++ [(name, listener)])
    (o_onabort request) (o_onerror request) (o_ontimeout request)
    (o_onload request) (o_onloadstart request) (o_onloadend request)
    (o_onprogress request) (o_onreadystatechange request)
    (o_headers request) (o_timeout request) (o_sent request).

(** [request.setRequestHeader(name, value)] on the original request. *)
Definition o_setRequestHeader (request : OriginalRequest) (name value : string)
    : OriginalRequest :=
  mkOriginal (o_method request) (o_url request) (o_async request)
    (o_user request) (o_password request) (o_listeners request)
    (o_onabort request) (o_onerror request) (o_ontimeout request)
    (o_onload request) (o_onloadstart request) (o_onloadend request)
    (o_onprogress request) (o_onreadystatechange request)
    (o_headers request ++ [(name, value)]) (o_timeout request)
    (o_sent request).

(** [new pureXMLHttpRequest()] followed by
    [open(method, url, async, user, password)]. *)
Definition o_new_open (method_ url_ : string) (async_ : bool)
    (user_ password_ : option string) : OriginalRequest :=
  mkOriginal method_ url_ async_ user_ password_ []
    None None None None None None None None [] 0 None.

(** [propagateCallbacks(request)]. *)
Definition propagateCallbacks (x : Instance) (request : OriginalRequest)
    : OriginalRequest :=
  mkOriginal (o_method request) (o_url request) (o_async request)
    (o_user request) (o_password request) (o_listeners request)
    (* request.onabort = this.abort *)
    (Some AbortMethod)
    (onerror x) (ontimeout x) (onload x) (onloadstart x) (onloadend x)
    (onprogress x) (onreadystatechange x)
    (o_headers request) (o_timeout request) (o_sent request).

(** [propagateListeners(request)]. *)
Definition propagateListeners (x : Instance) (request : OriginalRequest)
    : OriginalRequest :=
  fold_left
    (fun request e => o_addEventListener request (fst e) (Forwarded (snd e)))
    (_events x) request.

(** [propagateHeaders(request, headers)]. *)
Definition propagateHeaders (request : OriginalRequest) (headers : Headers)
    : OriginalRequest :=
  fold_left
    (fun request e => o_setRequestHeader request (fst e) (snd e))
    (Headers_raw headers) request.

(** [originalRequest.timeout = this.timeout]. *)
Definition o_set_timeout (request : OriginalRequest) (t : Z) : OriginalRequest :=
  mkOriginal (o_method request) (o_url request) (o_async request)
    (o_user request) (o_password request) (o_listeners request)
    (o_onabort request) (o_onerror request) (o_ontimeout request)
    (o_onload request) (o_onloadstart request) (o_onloadend request)
    (o_onprogress request) (o_onreadystatechange request)
    (o_headers request) t (o_sent request).

(** [originalRequest.send(data)]. *)
Definition o_send (request : OriginalRequest) (data_ : string) : OriginalRequest :=
  mkOriginal (o_method request) (o_url request) (o_async request)
    (o_user request) (o_password request) (o_listeners request)
    (o_onabort request) (o_onerror request) (o_ontimeout request)
    (o_onload request) (o_onloadstart request) (o_onloadend request)
    (o_onprogress request) (o_onreadystatechange request)
    (o_headers request) (o_timeout request) (Some data_).

(** ** [send] *)

(** The synchronous part of [send(data)]: it stores the body and builds the
    isomorphic request; the resolver is then awaited. *)
Definition send (x : Instance) (data_ : option string)
    : Instance * IsomorphicRequest :=
  let x := set_data x (or_string data_ "") in
  (x, mkIso (URL_resolve (url x)) (method x) (data x) (_requestHeaders x)).

(** The branch of the continuation taken when the middleware threw. *)
Definition on_exception (x : Instance) : Instance :=
  let x := trigger x error None in
  abort x.

(** How a run of statements ends: [Normal] when it reaches its last
    statement, [Abrupt] when an exception leaves it. Either way the
    instance is as the run left it. The continuation of [send] has no
    handler for exceptions: one that is thrown in it ends it there. *)
Inductive Completion : Type :=
| Normal (x : Instance)
| Abrupt (x : Instance).

Definition left_by (c : Completion) : Instance :=
  match c with Normal x | Abrupt x => x end.

Definition is_normal (c : Completion) : bool :=
  match c with Normal _ => true | Abrupt _ => false end.

(** Sequencing: what follows a run is run only when the run ended
    normally. *)
Definition and_then (c : Completion) (k : Instance -> Completion)
    : Completion :=
  match c with
  | Normal x => k x
  | Abrupt x => Abrupt x
  end.

(** The branch of the continuation taken for a mocked response, in the
    three steps the source takes one after the other. *)

(** First step: [loadstart], the status and the response headers, then
    [HEADERS_RECEIVED]. When [objectToHeaders] throws, the response headers
    are not assigned and the run ends. *)
Definition mocked_headers (x : Instance) (mockedResponse : MockedResponse)
    : Completion :=
  let x := trigger x loadstart None in
  let x := set_status x (or_number (m_status mockedResponse) 200) in
  let x := set_statusText x (or_string (m_statusText mockedResponse) "OK") in
  match
    match m_headers mockedResponse with
    | Some h => objectToHeaders h
    | None => Some Headers_new
    end
  with
  | Some headers =>
      let x := set_responseHeaders x headers in
      Normal (setReadyState x HEADERS_RECEIVED)
  | None => Abrupt x
  end.

(** Second step: [response] and [responseText], then [LOADING] and
    [progress] under the guard [mockedResponse.body && this.response]. *)
Definition mocked_body (x : Instance) (mockedResponse : MockedResponse)
    : Instance :=
  let x := set_response x (getResponseBody x (m_body mockedResponse)) in
  let x := set_responseText x (Some (or_string (m_body mockedResponse) "")) in
  if truthy_string (m_body mockedResponse) && truthy (response x) then
    let x := setReadyState x LOADING in
    let bodyBuffer := bufferFrom (nullish (m_body mockedResponse) "") in
    trigger x progress
      (Some (mkInit (Some (Z.of_nat (length bodyBuffer)))
                    (Some (Z.of_nat (length bodyBuffer)))))
  else x.

(** Third step: [DONE], [load], [loadend] and the notification of the
    observer. The snapshot is built with [objectToHeaders] again; when
    that throws, the observer is not notified. *)
Definition mocked_done (x : Instance) (isoRequest : IsomorphicRequest)
    (mockedResponse : MockedResponse) : Completion :=
  let x := setReadyState x DONE in
  let x := trigger x load None in
  let x := trigger x loadend None in
  match objectToHeaders (nullish (m_headers mockedResponse) []) with
  | Some headers =>
      Normal
        (set_log x
           (log x ++ [Emitted isoRequest
                        (mkSnapshot (status x) (statusText x) headers
                           (m_body mockedResponse))]))
  | None => Abrupt x
  end.

(** The whole branch, and the instance it leaves. *)
Definition on_mocked_run (x : Instance) (isoRequest : IsomorphicRequest)
    (mockedResponse : MockedResponse) : Completion :=
  and_then (mocked_headers x mockedResponse)
    (fun x =>
       mocked_done (mocked_body x mockedResponse) isoRequest mockedResponse).

Definition on_mocked (x : Instance) (isoRequest : IsomorphicRequest)
    (mockedResponse : MockedResponse) : Instance :=
  left_by (on_mocked_run x isoRequest mockedResponse).

(** The branch of the continuation taken when the resolver gave no mocked
    response: the original request as it is when [send] has been called on
    it. *)
Definition on_passthrough (x : Instance) : OriginalRequest :=
  let originalRequest :=
    o_new_open (method x) (url x) (nullish (async x) true) (user x)
      (password x) in
  let originalRequest := o_addEventListener originalRequest load RelayLoad in
  let originalRequest := propagateCallbacks x originalRequest in
  let originalRequest := propagateListeners x originalRequest in
  let originalRequest := propagateHeaders originalRequest (_requestHeaders x) in
  let originalRequest :=
    if nullish (async x) false
    then o_set_timeout originalRequest (timeout x)
    else originalRequest in
  o_send originalRequest (data x).

(** The continuation of [send], run on the pair
    [[middlewareException, mockedResponse]] that [until] settles with:
    [middlewareException] is the value the resolver threw or rejected with
    ([JNull] when it did neither), [mockedResponse] what it returned. The
    continuation acts on the instance as it is when the pair arrives; the
    result is the instance as the continuation leaves it, be it at its end
    or at an exception, and the original request if one was made. *)
Definition settled (x : Instance) (isoRequest : IsomorphicRequest)
    (middlewareException : JsValue) (mockedResponse : option MockedResponse)
    : Instance * option OriginalRequest :=
  if truthy middlewareException then (on_exception x, None)
  else
    match mockedResponse with
    | Some m => (on_mocked x isoRequest m, None)
    | None => (x, Some (on_passthrough x))
    end.

(** [new XMLHttpRequestOverride()]. *)
Definition new_instance : Instance :=
  mkInstance Headers_new Headers_new [] "GET" "" false 200 "OK" None None ""
    None (JStr "") (Some "") rt_text None "" UNSENT None 0
    None None None None None None None [].

End Override.

(** ** Reading the log *)

Section Reading.
Context `{D : Deps}.

(** The entries [x'] has logged beyond those of [x]. *)
Definition since (x x' : Instance) : list Obs :=
  skipn (length (log x)) (log x').

(** The events of a log, each with [readyState] as it was when fired. *)
Fixpoint fired (l : list Obs) : list (EventName * Z) :=
  match l with
  | [] => []
  | Fired name state _ _ :: l => (name, state) :: fired l
  | Emitted _ _ :: l => fired l
  end.

(** The event objects of a log. *)
Fixpoint fired_events (l : list Obs) : list Event :=
  match l with
  | [] => []
  | Fired _ _ ev _ :: l => ev :: fired_events l
  | Emitted _ _ :: l => fired_events l
  end.

(** The response headers a mocked response gives the instance; [None]
    when [objectToHeaders] throws on them. *)
Definition headers_of (m : MockedResponse) : option Headers :=
  match m_headers m with
  | Some h => objectToHeaders h
  | None => Some Headers_new
  end.

(** The entry of the observer's notification at the end of the mocked
    path; none when [objectToHeaders] throws while the snapshot is
    built. *)
Definition notification (iso : IsomorphicRequest) (m : MockedResponse)
    : list Obs :=
  match objectToHeaders (nullish (m_headers m) []) with
  | Some headers =>
      [Emitted iso
         (mkSnapshot (or_number (m_status m) 200)
            (or_string (m_statusText m) "OK") headers (m_body m))]
  | None => []
  end.

(** The number of bytes of a text. *)
Definition byteLength (s : string) : Z := Z.of_nat (length (bufferFrom s)).

(** The value [getResponseBody] gives for [body] once the response headers
    [h] are readable, by response type. *)
Definition coerced (rt : ResponseType) (h : Headers) (body : option string)
    : JsValue :=
  let text := nullish body "" in
  match rt with
  | rt_json => parseJson text
  | rt_blob =>
      JBlob text (or_string (Headers_get h "content-type") "text/plain")
  | rt_arraybuffer => JBuffer (bufferFrom text)
  | _ => JStr text
  end.

(** The log entries of the events the instance fires on itself. *)
Definition readystatechange_at (x : Instance) (n : Z) : Obs :=
  Fired readystatechange n (EventPolyfill readystatechange)
    (targets x readystatechange).

Definition progress_fired (x : Instance) (n : Z) : Obs :=
  Fired progress LOADING (ProgressEvent progress true n n) (targets x progress).

Definition plain_fired (x : Instance) (name : EventName) (state : Z) : Obs :=
  Fired name state (ProgressEvent name true 0 0) (targets x name).

(** What the mocked path adds to the log of [x] when the response
    headers [hs] have been assigned. *)
Definition mocked_trace (x : Instance) (iso : IsomorphicRequest)
    (m : MockedResponse) (hs : Headers) : list Obs :=
  let r := coerced (responseType x) hs (m_body m) in
  plain_fired x loadstart (readyState x)
  :: (if HEADERS_RECEIVED =? readyState x then []
      else [readystatechange_at x HEADERS_RECEIVED])
  ++ (if truthy_string (m_body m) && truthy r
      then [readystatechange_at x LOADING;
            progress_fired x (byteLength (nullish (m_body m) ""))]
      else [])
  ++ [readystatechange_at x DONE; plain_fired x load DONE;
      plain_fired x loadend DONE]
  ++ notification iso m.

(** The [progress] event objects among the events of a log. *)
Definition progress_events (l : list Obs) : list Event :=
  filter (fun ev => match ev with
                    | ProgressEvent progress _ _ _ => true
                    | _ => false
                    end)
    (fired_events l).

(** A sequence of [setReadyState] calls. *)
Definition setReadyStates (x : Instance) (states : list Z) : Instance :=
  fold_left setReadyState states x.

End Reading.

(** The states a sequence of requested states really moves through, from the
    state [current]: a request for the state the instance is in changes
    nothing. *)
Fixpoint reached (current : Z) (states : list Z) : list Z :=
  match states with
  | [] => []
  | n :: states =>
      if n =? current then reached current states
      else n :: reached n states
  end.

(** ** A sample of the collaborators

    Enough of a header store and of [JSON.parse] to run the model: headers
    are kept in insertion order and looked up without regard to case;
    [objectToHeaders] throws, as that of [headers-utils] does, when a name
    is empty or has a character that no header name may have; [JSON.parse]
    is given for the scalar texts [null], [true], [false], the integers and
    the string literals without escapes, where it agrees with ECMAScript,
    and rejects every other text; the sentinel of [parseJson] is
    [null]. *)
Module Sample.

Definition lower_ascii (c : ascii) : ascii :=
  let n := nat_of_ascii c in
  if (Nat.leb 65 n && Nat.leb n 90)%bool then ascii_of_nat (n + 32) else c.

Fixpoint lower (s : string) : string :=
  match s with
  | EmptyString => EmptyString
  | String c s => String (lower_ascii c) (lower s)
  end.

Fixpoint get (h : list (string * string)) (name : string) : option string :=
  match h with
  | [] => None
  | (n, v) :: h => if (lower n =? lower name)%string then Some v else get h name
  end.

Definition is_digit (c : ascii) : bool :=
  let n := nat_of_ascii c in (Nat.leb 48 n && Nat.leb n 57)%bool.

Fixpoint digits (s : string) (acc : Z) : option Z :=
  match s with
  | EmptyString => Some acc
  | String c s =>
      if is_digit c
      then digits s (10 * acc + (Z.of_nat (nat_of_ascii c) - 48))
      else None
  end.

Definition json_natural (s : string) : option Z :=
  match s with
  | EmptyString => None
  | String "0" EmptyString => Some 0
  | String "0" _ => None
  | _ => digits s 0
  end.

Definition json_integer (s : string) : option Z :=
  match s with
  | String "-" s => option_map Z.opp (json_natural s)
  | _ => json_natural s
  end.

(** The double quote. *)
Definition quote : ascii := "034"%char.

(** The text of a string literal, read from behind its opening quote up to
    the closing quote, which must end the text; escapes and control
    characters are not taken. *)
Fixpoint json_string (s : string) : option string :=
  match s with
  | EmptyString => None
  | String c s =>
      if Ascii.eqb c quote then
        match s with EmptyString => Some EmptyString | _ => None end
      else if Ascii.eqb c "\"%char || Nat.ltb (nat_of_ascii c) 32 then None
      else option_map (String c) (json_string s)
  end.

Definition json_scalar (s : string) : option JsValue :=
  if (s =? "null")%string then Some JNull
  else if (s =? "true")%string then Some (JBool true)
  else if (s =? "false")%string then Some (JBool false)
  else
    match s with
    | String c body =>
        if Ascii.eqb c quote then option_map JStr (json_string body)
        else option_map (fun z => JNum (inject_Z z)) (json_integer s)
    | EmptyString => None
    end.

(** The characters of a header name: letters, digits and a few signs. *)
Definition name_char (c : ascii) : bool :=
  let n := nat_of_ascii c in
  (Nat.leb 97 n && Nat.leb n 122) || (Nat.leb 65 n && Nat.leb n 90)
  || is_digit c
  || existsb (Ascii.eqb c) (list_ascii_of_string "-#$%&'*+.^_`|~").

Definition header_name (s : string) : bool :=
  negb (s =? "")%string && forallb name_char (list_ascii_of_string s).

Definition object_to_headers (h : list (string * string))
    : option (list (string * string)) :=
  if forallb (fun e => header_name (fst e)) h then Some h else None.

#[export] Instance deps : Deps := {|
  Headers := list (string * string);
  Headers_new := [];
  Headers_append := fun h name value => h ++ [(name, value)];
  Headers_get := get;
  Headers_raw := fun h => h;
  objectToHeaders := object_to_headers;
  JSON_parse := json_scalar;
  URL_resolve := fun u => u;
  unparseable := JNull
|}.

(** An instance on which [open('GET', '/data')] has been called. *)
Definition opened : Instance :=
  open new_instance "GET" (Some "/data") None None None.

(** A mocked response with the body [hello]. *)
Definition hello : MockedResponse :=
  mkMock (Some 200) None None (Some "hello").

(** The instance after [send()] on [opened] was answered with [hello]. *)
Definition completed : Instance :=
  fst (settled (fst (send opened None)) (snd (send opened None)) JNull
         (Some hello)).

(** An [Error] object, as a resolver throws it. *)
Definition failure : JsValue := JObj [("message", JStr "boom")].

(** A mocked response whose body is the JSON text [0]. *)
Definition zero : MockedResponse := mkMock None None None (Some "0").

(** [opened] with [responseType = 'json']. *)
Definition opened_json : Instance := set_responseType opened rt_json.

(** A new instance with a listener for [load]. *)
Definition listening : Instance :=
  addEventListener new_instance load (UserFn 1).

(** [opened] with an [onabort] callback, a [load] listener and a request
    header. *)
Definition configured : Instance :=
  set_onabort
    (addEventListener (setRequestHeader opened "X-Token" "1") load (UserFn 1))
    (Some (UserFn 7)).

(** A mocked response with a header whose name has a space in it. *)
Definition misnamed : MockedResponse :=
  mkMock None None (Some [("Bad Name", "1")]) (Some "x").

(** A mocked response whose body is the JSON string literal of [hi]. *)
Definition literal : MockedResponse :=
  mkMock None None None
    (Some (String quote (append "hi" (String quote EmptyString)))).

(** A mocked response with nothing set. *)
Definition bare : MockedResponse := mkMock None None None None.

(** A mocked response with a content type. *)
Definition typed : MockedResponse :=
  mkMock None None (Some [("Content-Type", "application/json")])
    (Some "hello").

(** [opened] with [responseType = 'blob'], and the same instance after
    [send()] was answered with [typed]. *)
Definition opened_blob : Instance := set_responseType opened rt_blob.

Definition completed_blob : Instance :=
  fst (settled (fst (send opened_blob None)) (snd (send opened_blob None))
         JNull (Some typed)).

End Sample.

(** * The rest of the class *)

(** The two conversions of [headers-utils] between a header store and the
    text of a header block. *)
Class Wire `{Deps} : Type := {
  (** [stringToHeaders]; [None] stands for the [TypeError] it throws
      when a line of the text has no header name. *)
  stringToHeaders : string -> option Headers;
  headersToString : Headers -> string
}.

(** What the original request shows when its [load] event fires: the
    properties the relay of [send] reads, and the result of
    [getAllResponseHeaders()]. *)
Record OriginalResponse : Type := mkOriginalResponse {
  r_status : Z;
  r_statusText : string;
  r_responseURL : string;
  r_responseType : ResponseType;
  r_response : JsValue;
  r_responseText : string;
  r_responseXML : option Document;
  r_allResponseHeaders : string
}.

(** The response snapshot the relay gives to the observer; its body is the
    [response] of the original request, of any type. *)
Record OriginalSnapshot `{Deps} : Type := mkOriginalSnapshot {
  os_request : IsomorphicRequest;
  os_status : Z;
  os_statusText : string;
  os_headers : Headers;
  os_body : JsValue
}.

Arguments mkOriginalSnapshot {_} _ _ _ _ _.

Section Rest.
Context `{D : Deps} `{W : !Wire}.

Definition set_responseURL (x : Instance) (v : string) : Instance :=
  mkInstance (_requestHeaders x) (_responseHeaders x) (_events x) (method x)
    (url x) (withCredentials x) (status x) (statusText x) (user x) (password x) (data x) (async x) (response x) (responseText x) (responseType x)
    (responseXML x) v (readyState x) (onreadystatechange x) (timeout x)
    (onabort x) (onerror x) (onload x) (onloadend x) (onloadstart x)
    (onprogress x) (ontimeout x) (log x).

Definition set_timeout (x : Instance) (v : Z) : Instance :=
  mkInstance (_requestHeaders x) (_responseHeaders x) (_events x) (method x)
    (url x) (withCredentials x) (status x) (statusText x) (user x) (password x) (data x) (async x) (response x) (responseText x) (responseType x)
    (responseXML x) (responseURL x) (readyState x) (onreadystatechange x) v
    (onabort x) (onerror x) (onload x) (onloadend x) (onloadstart x)
    (onprogress x) (ontimeout x) (log x).

Definition set_withCredentials (x : Instance) (v : bool) : Instance :=
  mkInstance (_requestHeaders x) (_responseHeaders x) (_events x) (method x)
    (url x) v (status x) (statusText x) (user x) (password x) (data x)
    (async x) (response x) (responseText x) (responseType x) (responseXML x)
    (responseURL x) (readyState x) (onreadystatechange x) (timeout x)
    (onabort x) (onerror x) (onload x) (onloadend x) (onloadstart x)
    (onprogress x) (ontimeout x) (log x).

Definition set_onreadystatechange (x : Instance) (v : option Handler) : Instance :=
  mkInstance (_requestHeaders x) (_responseHeaders x) (_events x) (method x)
    (url x) (withCredentials x) (status x) (statusText x) (user x) (password x) (data x) (async x) (response x) (responseText x) (responseType x)
    (responseXML x) (responseURL x) (readyState x) v (timeout x) (onabort x)
    (onerror x) (onload x) (onloadend x) (onloadstart x) (onprogress x)
    (ontimeout x) (log x).

Definition set_onerror (x : Instance) (v : option Handler) : Instance :=
  mkInstance (_requestHeaders x) (_responseHeaders x) (_events x) (method x)
    (url x) (withCredentials x) (status x) (statusText x) (user x) (password x) (data x) (async x) (response x) (responseText x) (responseType x)
    (responseXML x) (responseURL x) (readyState x) (onreadystatechange x)
    (timeout x) (onabort x) v (onload x) (onloadend x) (onloadstart x)
    (onprogress x) (ontimeout x) (log x).

Definition set_onloadend (x : Instance) (v : option Handler) : Instance :=
  mkInstance (_requestHeaders x) (_responseHeaders x) (_events x) (method x)
    (url x) (withCredentials x) (status x) (statusText x) (user x) (password x) (data x) (async x) (response x) (responseText x) (responseType x)
    (responseXML x) (responseURL x) (readyState x) (onreadystatechange x)
    (timeout x) (onabort x) (onerror x) (onload x) v (onloadstart x)
    (onprogress x) (ontimeout x) (log x).

Definition set_onloadstart (x : Instance) (v : option Handler) : Instance :=
  mkInstance (_requestHeaders x) (_responseHeaders x) (_events x) (method x)
    (url x) (withCredentials x) (status x) (statusText x) (user x) (password x) (data x) (async x) (response x) (responseText x) (responseType x)
    (responseXML x) (responseURL x) (readyState x) (onreadystatechange x)
    (timeout x) (onabort x) (onerror x) (onload x) (onloadend x) v
    (onprogress x) (ontimeout x) (log x).

Definition set_onprogress (x : Instance) (v : option Handler) : Instance :=
  mkInstance (_requestHeaders x) (_responseHeaders x) (_events x) (method x)
    (url x) (withCredentials x) (status x) (statusText x) (user x) (password x) (data x) (async x) (response x) (responseText x) (responseType x)
    (responseXML x) (responseURL x) (readyState x) (onreadystatechange x)
    (timeout x) (onabort x) (onerror x) (onload x) (onloadend x)
    (onloadstart x) v (ontimeout x) (log x).

Definition set_ontimeout (x : Instance) (v : option Handler) : Instance :=
  mkInstance (_requestHeaders x) (_responseHeaders x) (_events x) (method x)
    (url x) (withCredentials x) (status x) (statusText x) (user x) (password x) (data x) (async x) (response x) (responseText x) (responseType x)
    (responseXML x) (responseURL x) (readyState x) (onreadystatechange x)
    (timeout x) (onabort x) (onerror x) (onload x) (onloadend x)
    (onloadstart x) (onprogress x) v (log x).

(** An assignment to the direct-callback slot [on<name>]. *)
Definition set_slot (x : Instance) (name : EventName) (v : option Handler)
    : Instance :=
  match name with
  | readystatechange => set_onreadystatechange x v
  | abort_ev => set_onabort x v
  | error => set_onerror x v
  | load => set_onload x v
  | loadend => set_onloadend x v
  | loadstart => set_onloadstart x v
  | progress => set_onprogress x v
  | timeout_ev => set_ontimeout x v
  end.

(** [getAllResponseHeaders()]. *)
Definition getAllResponseHeaders (x : Instance) : string :=
  if readyState x <? HEADERS_RECEIVED then ""
  else headersToString (_responseHeaders x).

(** [dispatchEvent()]. *)
Definition dispatchEvent (x : Instance) : bool := false.

(** [overrideMimeType()]. *)
Definition overrideMimeType (x : Instance) : Instance := x.

(** The [load] listener that [send] adds to the original request on the
    passthrough path, run when the original request has loaded: the instance
    as the listener leaves it and the snapshot given to
    [observer.emit('response', ...)]. When [stringToHeaders] throws, the
    response headers are not assigned and the observer is not notified. *)
Definition on_original_load (x : Instance) (isoRequest : IsomorphicRequest)
    (originalRequest : OriginalResponse)
    : Instance * option OriginalSnapshot :=
  let x := set_status x (r_status originalRequest) in
  let x := set_statusText x (r_statusText originalRequest) in
  let x := set_responseURL x (r_responseURL originalRequest) in
  let x := set_responseType x (r_responseType originalRequest) in
  let x := set_response x (r_response originalRequest) in
  let x := set_responseText x (Some (r_responseText originalRequest)) in
  let x := set_responseXML x (r_responseXML originalRequest) in
  let x := setReadyState x DONE in
  match stringToHeaders (r_allResponseHeaders originalRequest) with
  | Some headers =>
      let x := set_responseHeaders x headers in
      (x, Some (mkOriginalSnapshot isoRequest (r_status originalRequest)
                  (r_statusText originalRequest) (_responseHeaders x)
                  (r_response originalRequest)))
  | None => (x, None)
  end.

(** ** Runs of an instance

    What can happen to an instance after its construction: a call of one of
    its [XMLHttpRequest] methods, an assignment to one of its public
    settings, the settlement of the resolver for an earlier [send], the
    [load] of the original request of an earlier passthrough. *)
Inductive Call : Type :=
| call_open (method_ : string) (url_ : option string) (async_ : option bool)
    (user_ password_ : option string)
| call_send (data_ : option string)
| call_settled (isoRequest : IsomorphicRequest)
    (middlewareException : JsValue) (mockedResponse : option MockedResponse)
| call_original_load (isoRequest : IsomorphicRequest)
    (originalRequest : OriginalResponse)
| call_abort
| call_setRequestHeader (name value : string)
| call_addEventListener (name : EventName) (listener : Handler)
| call_removeEventListener (name : EventName) (listener : Handler)
| call_overrideMimeType
| assign_responseType (v : ResponseType)
| assign_timeout (v : Z)
| assign_withCredentials (v : bool)
| assign_slot (name : EventName) (v : option Handler).

Definition call (x : Instance) (c : Call) : Instance :=
  match c with
  | call_open method_ url_ async_ user_ password_ =>
      open x method_ url_ async_ user_ password_
  | call_send data_ => fst (send x data_)
  | call_settled isoRequest middlewareException mockedResponse =>
      fst (settled x isoRequest middlewareException mockedResponse)
  | call_original_load isoRequest originalRequest =>
      fst (on_original_load x isoRequest originalRequest)
  | call_abort => abort x
  | call_setRequestHeader name value => setRequestHeader x name value
  | call_addEventListener name listener => addEventListener x name listener
  | call_removeEventListener name listener =>
      removeEventListener x name listener
  | call_overrideMimeType => overrideMimeType x
  | assign_responseType v => set_responseType x v
  | assign_timeout v => set_timeout x v
  | assign_withCredentials v => set_withCredentials x v
  | assign_slot name v => set_slot x name v
  end.

Definition calls (x : Instance) (cs : list Call) : Instance :=
  fold_left call cs x.

(** The calls that change who is told of an event. *)
Definition registers (c : Call) : bool :=
  match c with
  | call_addEventListener _ _ | call_removeEventListener _ _
  | assign_slot _ _ => true
  | _ => false
  end.

(** The calls that can take [readyState] down: [open], [abort], and a
    settlement that carries a failure. *)
Definition lowers (c : Call) : bool :=
  match c with
  | call_open _ _ _ _ _ | call_abort => true
  | call_settled _ middlewareException _ => truthy middlewareException
  | _ => false
  end.

(** What [reset] does to the fields other than [readyState]. *)
Definition cleared (x : Instance) : Instance :=
  set_responseHeaders
    (set_requestHeaders
       (set_responseXML
          (set_responseText
             (set_response
                (set_data (set_statusText (set_status x 200) "OK") "")
                JNull)
             None)
          None)
       Headers_new)
    Headers_new.

(** The notifications of the observer in a log. *)
Fixpoint emitted (l : list Obs)
    : list (IsomorphicRequest * ResponseSnapshot) :=
  match l with
  | [] => []
  | Fired _ _ _ _ :: l => emitted l
  | Emitted request snapshot :: l => (request, snapshot) :: emitted l
  end.

(** A progress event object of the given type with [loaded] and [total]
    both 0. *)
Definition blank_progress (name : EventName) (ev : Event) : bool :=
  match ev with
  | ProgressEvent type lengthComputable loaded total =>
      EventName_eqb type name && lengthComputable && (loaded =? 0)
      && (total =? 0)
  | EventPolyfill _ => false
  end.

(** The shape the entries of a log have: which event object goes with
    which event name, and in which state the event may be fired. *)
Definition well_formed (o : Obs) : bool :=
  match o with
  | Emitted _ _ => true
  | Fired readystatechange state ev _ =>
      match ev with
      | EventPolyfill readystatechange =>
          (state =? OPENED) || (state =? HEADERS_RECEIVED)
          || (state =? LOADING) || (state =? DONE)
      | _ => false
      end
  | Fired abort_ev state ev _ => (state =? UNSENT) && blank_progress abort_ev ev
  | Fired load state ev _ => (state =? DONE) && blank_progress load ev
  | Fired loadend state ev _ => (state =? DONE) && blank_progress loadend ev
  | Fired progress state ev _ =>
      match ev with
      | ProgressEvent progress true loaded total =>
          (state =? LOADING) && (loaded =? total) && (0 <? loaded)
      | _ => false
      end
  | Fired loadstart _ ev _ => blank_progress loadstart ev
  | Fired error _ ev _ => blank_progress error ev
  | Fired timeout_ev _ _ _ => false
  end.

(** An entry of the log was handed to the functions [x] has for its
    event. *)
Definition handed_to (x : Instance) (o : Obs) : Prop :=
  match o with
  | Fired name _ _ t => t = targets x name
  | Emitted _ _ => True
  end.

(** A state in which the instance can be found between two calls. *)
Definition resting (n : Z) : Prop := n = UNSENT \/ n = OPENED \/ n = DONE.

End Rest.

(** A sample of the conversions: one line [name: value] per header, each
    ended by a carriage return and a line feed. [stringToHeaders] throws,
    as that of [headers-utils] does, on the empty text and on a line
    without a header name. *)
Module SampleWire.

Definition crlf : string := String "013" (String "010" EmptyString).

Fixpoint serialize (h : list (string * string)) : string :=
  match h with
  | [] => EmptyString
  | (n, v) :: h => append n (append ": " (append v (append crlf (serialize h))))
  end.

(** The text up to the first [sep], and what follows it. *)
Fixpoint split_at (sep : string) (s : string) : option (string * string) :=
  if prefix sep s then Some (EmptyString, substring (String.length sep) (String.length s) s)
  else
    match s with
    | EmptyString => None
    | String c s =>
        match split_at sep s with
        | Some (a, b) => Some (String c a, b)
        | None => None
        end
    end.

Fixpoint parse (fuel : nat) (s : string) : list (string * string) :=
  match fuel with
  | O => []
  | S fuel =>
      match split_at crlf s with
      | None => []
      | Some (line, rest) =>
          match split_at ": " line with
          | Some (n, v) => (n, v) :: parse fuel rest
          | None => (line, EmptyString) :: parse fuel rest
          end
      end
  end.

Definition string_to_headers (s : string)
    : option (list (string * string)) :=
  match s with
  | EmptyString => None
  | _ => Sample.object_to_headers (parse (String.length s) s)
  end.

#[export] Instance wire : @Wire Sample.deps :=
  @Build_Wire Sample.deps string_to_headers serialize.

(** What an original request shows when it has no response headers. *)
Definition bare_answer : OriginalResponse :=
  mkOriginalResponse 204 "No Content" "http://localhost/data" rt_empty
    (JStr "") "" None EmptyString.

(** What an original request shows for a [404 Not Found] answer. *)
Definition not_found : OriginalResponse :=
  mkOriginalResponse 404 "Not Found" "http://localhost/data" rt_empty
    (JStr "missing") "missing" None
    (append "Content-Type: text/plain" crlf).

End SampleWire.

(** * Properties *)

Lemma EventName_eqb_spec (a b : EventName) :
  reflect (a = b) (EventName_eqb a b).
Proof. destruct a, b; constructor; congruence. Qed.

Lemma Handler_eqb_spec (a b : Handler) : reflect (a = b) (Handler_eqb a b).
Proof.
  destruct a as [i|], b as [j|]; simpl; try (constructor; congruence).
  destruct (Nat.eqb_spec i j); constructor; congruence.
Qed.

Section Facts.
Context `{D : Deps}.

(** Two instances with the same fields are the same instance. *)
Lemma Instance_ext (a b : Instance) :
  _requestHeaders a = _requestHeaders b ->
  _responseHeaders a = _responseHeaders b ->
  _events a = _events b -> method a = method b -> url a = url b ->
  withCredentials a = withCredentials b -> status a = status b ->
  statusText a = statusText b -> user a = user b ->
  password a = password b -> data a = data b -> async a = async b ->
  response a = response b -> responseText a = responseText b ->
  responseType a = responseType b -> responseXML a = responseXML b ->
  responseURL a = responseURL b -> readyState a = readyState b ->
  onreadystatechange a = onreadystatechange b -> timeout a = timeout b ->
  onabort a = onabort b -> onerror a = onerror b -> onload a = onload b ->
  onloadend a = onloadend b -> onloadstart a = onloadstart b ->
  onprogress a = onprogress b -> ontimeout a = ontimeout b ->
  log a = log b ->
  a = b.
Proof. destruct a, b; cbn; intros; subst; reflexivity. Qed.

Ltac fields :=
  cbn - [Z.eqb Z.ltb Z.gtb coerced bufferFrom String.eqb truthy byteLength
         or_number or_string app].

Ltac same_instance := apply Instance_ext; fields; try reflexivity.

Lemma since_app (x x' : Instance) (l : list Obs) :
  log x' = log x ++ l -> since x x' = l.
Proof.
  intros H. unfold since.
  rewrite H, skipn_app, skipn_all, Nat.sub_diag. reflexivity.
Qed.

(** ** [setReadyState] *)

Lemma setReadyState_eq (x : Instance) (n : Z) :
  setReadyState x n =
  set_log (set_readyState x n)
    (log x ++ if (n =? readyState x) || (n =? UNSENT) then []
              else [readystatechange_at x n]).
Proof.
  unfold setReadyState.
  destruct (Z.eqb_spec n (readyState x)) as [E|E]; cbn [orb negb].
  - same_instance; [symmetry; exact E | now rewrite app_nil_r].
  - destruct (n =? UNSENT); cbn [negb]; same_instance. now rewrite app_nil_r.
Qed.

Lemma setReadyState_readyState (x : Instance) (n : Z) :
  readyState (setReadyState x n) = n.
Proof. rewrite setReadyState_eq. reflexivity. Qed.

Lemma setReadyState_log (x : Instance) (n : Z) :
  log (setReadyState x n) =
  log x ++ if (n =? readyState x) || (n =? UNSENT) then []
           else [readystatechange_at x n].
Proof. rewrite setReadyState_eq. reflexivity. Qed.

Lemma setReadyState_targets (x : Instance) (n : Z) (name : EventName) :
  targets (setReadyState x n) name = targets x name.
Proof. rewrite setReadyState_eq. destruct name; reflexivity. Qed.

Lemma setReadyState_same (x : Instance) :
  setReadyState x (readyState x) = x.
Proof. unfold setReadyState. now rewrite Z.eqb_refl. Qed.

Lemma setReadyStates_log (states : list Z) (x : Instance) :
  log (setReadyStates x states) =
  log x ++ map (readystatechange_at x)
             (filter (fun n => negb (n =? UNSENT))
                (reached (readyState x) states)).
Proof.
  revert x. induction states as [|n states IH]; intros x; cbn [reached].
  - cbn. now rewrite app_nil_r.
  - unfold setReadyStates in *. cbn [fold_left].
    rewrite IH, setReadyState_readyState, setReadyState_log.
    replace (map (readystatechange_at (setReadyState x n)))
      with (map (readystatechange_at x)).
    2:{ f_equal. unfold readystatechange_at.
        now rewrite setReadyState_targets. }
    destruct (Z.eqb_spec n (readyState x)) as [E|E]; cbn [orb].
    + subst n. now rewrite app_nil_r.
    + cbn [filter]. destruct (n =? UNSENT); cbn [negb];
        rewrite <- app_assoc; reflexivity.
Qed.

Lemma last_cons_default (l : list Z) (a d : Z) : last (a :: l) d = last l a.
Proof.
  revert a d. induction l as [|b l IH]; intros a d; [reflexivity|].
  change (last (a :: b :: l) d) with (last (b :: l) d).
  now rewrite !IH.
Qed.

Lemma setReadyStates_readyState (states : list Z) (x : Instance) :
  readyState (setReadyStates x states) = last states (readyState x).
Proof.
  revert x. induction states as [|n states IH]; intros x; [reflexivity|].
  unfold setReadyStates in *. cbn [fold_left]. rewrite IH.
  rewrite setReadyState_readyState. symmetry. apply last_cons_default.
Qed.

Lemma reached_NoDup (states : list Z) (current : Z) :
  NoDup (current :: states) -> reached current states = states.
Proof.
  revert current. induction states as [|n states IH]; intros current H;
    [reflexivity|].
  cbn [reached]. inversion H as [|? ? Hin Hnd]; subst.
  destruct (Z.eqb_spec n current) as [E|E].
  - exfalso. apply Hin. left. now symmetry.
  - f_equal. apply IH. exact Hnd.
Qed.

Lemma filter_nonzero_id (states : list Z) :
  ~ In UNSENT states ->
  filter (fun n => negb (n =? UNSENT)) states = states.
Proof.
  induction states as [|n states IH]; intros H; [reflexivity|].
  cbn [filter]. destruct (Z.eqb_spec n UNSENT) as [E|E].
  - exfalso. apply H. left. exact E.
  - cbn [negb]. f_equal. apply IH. intros Hin. apply H. now right.
Qed.

Lemma fired_readystatechanges (x : Instance) (states : list Z) :
  fired (map (readystatechange_at x) states) =
  map (fun n => (readystatechange, n)) states.
Proof. induction states as [|n states IH]; cbn; [|rewrite IH]; reflexivity. Qed.

(** C6. Over any sequence of [setReadyState] calls, [readystatechange] is
    fired once for each state the instance moves to (a call that asks for
    the state the instance is in moves nowhere), with [readyState] already
    showing the new state, and never for a move to [UNSENT]: the events
    fired are those of the states reached, [UNSENT] left out. A call with
    the current state returns the instance as it is; a call with [UNSENT]
    fires nothing. When the states asked for are all distinct, differ from
    the starting state and none is [UNSENT], there is exactly one event per
    state. *)
Theorem readystatechange_once_per_state_reached
    (x : Instance) (states : list Z) :
  fired (since x (setReadyStates x states)) =
    map (fun n => (readystatechange, n))
      (filter (fun n => negb (n =? UNSENT)) (reached (readyState x) states))
  /\ readyState (setReadyStates x states) = last states (readyState x)
  /\ setReadyState x (readyState x) = x
  /\ since x (setReadyState x UNSENT) = []
  /\ (forall n, n <> readyState x -> n <> UNSENT ->
        readyState (setReadyState x n) = n /\
        since x (setReadyState x n) =
          [Fired readystatechange n (EventPolyfill readystatechange)
             (targets x readystatechange)])
  /\ (NoDup (readyState x :: states) -> ~ In UNSENT states ->
        fired (since x (setReadyStates x states)) =
          map (fun n => (readystatechange, n)) states).
Proof.
  assert (Hseq : fired (since x (setReadyStates x states)) =
    map (fun n => (readystatechange, n))
      (filter (fun n => negb (n =? UNSENT)) (reached (readyState x) states))).
  { erewrite since_app by apply setReadyStates_log.
    apply fired_readystatechanges. }
  repeat split.
  - exact Hseq.
  - apply setReadyStates_readyState.
  - apply setReadyState_same.
  - apply since_app. rewrite setReadyState_log.
    now rewrite Z.eqb_refl, orb_true_r.
  - apply setReadyState_readyState.
  - apply since_app. rewrite setReadyState_log.
    destruct (Z.eqb_spec n (readyState x)); [contradiction|].
    destruct (Z.eqb_spec n UNSENT); [contradiction|]. reflexivity.
  - intros Hnd Hu. rewrite Hseq, reached_NoDup by exact Hnd.
    now rewrite filter_nonzero_id.
Qed.

(** ** [abort] *)

Lemma abort_in_flight (x : Instance) :
  UNSENT < readyState x < DONE ->
  abort x =
  set_log (set_readyState x UNSENT)
    (log x ++ [plain_fired x abort_ev UNSENT]).
Proof.
  intros [H1 H2]. unfold abort.
  destruct (Z.gtb_spec (readyState x) UNSENT); [|lia].
  destruct (Z.ltb_spec (readyState x) DONE); [|lia].
  cbn [andb]. rewrite setReadyState_eq. same_instance.
  rewrite Z.eqb_refl, orb_true_r, app_nil_r. reflexivity.
Qed.

Lemma abort_idle (x : Instance) :
  readyState x <= UNSENT \/ DONE <= readyState x -> abort x = x.
Proof.
  intros H. unfold abort.
  destruct (Z.gtb_spec (readyState x) UNSENT);
    destruct (Z.ltb_spec (readyState x) DONE); cbn [andb]; try reflexivity.
  lia.
Qed.

(** C7. [abort()] resets [readyState] to [UNSENT] and fires [abort] exactly
    when [UNSENT < readyState < DONE]; otherwise, so when [readyState] is
    [UNSENT] or [DONE], it leaves the instance as it is and fires
    nothing. *)
Theorem abort_only_in_flight (x : Instance) :
  (UNSENT < readyState x < DONE ->
     readyState (abort x) = UNSENT /\
     since x (abort x) =
       [Fired abort_ev UNSENT (ProgressEvent abort_ev true 0 0)
          (targets x abort_ev)])
  /\ (readyState x <= UNSENT \/ DONE <= readyState x -> abort x = x)
  /\ (abort x <> x <-> UNSENT < readyState x < DONE).
Proof.
  split; [|split; [apply abort_idle|split]].
  - intros H. rewrite (abort_in_flight x H). split; [reflexivity|].
    apply since_app. reflexivity.
  - intros Hne.
    destruct (Z_lt_dec UNSENT (readyState x));
      destruct (Z_lt_dec (readyState x) DONE); try (split; assumption);
      exfalso; apply Hne, abort_idle; lia.
  - intros H Heq. apply (f_equal (fun y => length (log y))) in Heq.
    rewrite (abort_in_flight x H) in Heq. cbn [log set_log] in Heq.
    rewrite length_app in Heq. cbn in Heq. lia.
Qed.

(** ** The mocked path *)

Lemma mocked_headers_eq (x : Instance) (m : MockedResponse) (hs : Headers) :
  headers_of m = Some hs ->
  mocked_headers x m =
  Normal
    (set_log
       (set_readyState
          (set_responseHeaders
             (set_statusText (set_status x (or_number (m_status m) 200))
                (or_string (m_statusText m) "OK"))
             hs)
          HEADERS_RECEIVED)
       (log x ++ plain_fired x loadstart (readyState x)
          :: (if HEADERS_RECEIVED =? readyState x then []
              else [readystatechange_at x HEADERS_RECEIVED]))).
Proof.
  intros H. unfold mocked_headers. unfold headers_of in H. cbv zeta.
  rewrite H. f_equal. rewrite setReadyState_eq.
  same_instance. rewrite orb_false_r, <- app_assoc. reflexivity.
Qed.

Lemma mocked_headers_rejected (x : Instance) (m : MockedResponse) :
  headers_of m = None ->
  mocked_headers x m =
  Abrupt
    (set_log
       (set_statusText (set_status x (or_number (m_status m) 200))
          (or_string (m_statusText m) "OK"))
       (log x ++ [plain_fired x loadstart (readyState x)])).
Proof.
  intros H. unfold mocked_headers. unfold headers_of in H. cbv zeta.
  rewrite H. reflexivity.
Qed.

Lemma getResponseBody_coerced (x : Instance) (body : option string) :
  HEADERS_RECEIVED <= readyState x ->
  getResponseBody x body = coerced (responseType x) (_responseHeaders x) body.
Proof.
  intros H. unfold getResponseBody, coerced, getResponseHeader.
  destruct (Z.ltb_spec (readyState x) HEADERS_RECEIVED); [lia | reflexivity].
Qed.

Lemma byteLength_positive (s : string) : s <> "" -> 0 < byteLength s.
Proof.
  unfold byteLength, bufferFrom. destruct s as [|c s]; [congruence|].
  intros _. cbn. lia.
Qed.

Lemma truthy_string_iff (s : string) : truthy_string (Some s) = true <-> s <> "".
Proof.
  unfold truthy_string. destruct (String.eqb_spec s ""); cbn; split;
    congruence.
Qed.

Lemma or_number_byteLength (s : string) :
  truthy_string (Some s) = true ->
  or_number (Some (byteLength s)) 0 = byteLength s.
Proof.
  intros H. apply truthy_string_iff, byteLength_positive in H.
  unfold or_number. destruct (Z.eqb_spec (byteLength s) 0); [lia|reflexivity].
Qed.

Lemma mocked_body_eq (x : Instance) (m : MockedResponse) :
  readyState x = HEADERS_RECEIVED ->
  mocked_body x m =
  let r := coerced (responseType x) (_responseHeaders x) (m_body m) in
  let c := truthy_string (m_body m) && truthy r in
  set_log
    (set_readyState
       (set_responseText (set_response x r) (Some (or_string (m_body m) "")))
       (if c then LOADING else HEADERS_RECEIVED))
    (log x ++ if c then [readystatechange_at x LOADING;
                         progress_fired x (byteLength (nullish (m_body m) ""))]
              else []).
Proof.
  intros H. unfold mocked_body. cbv zeta.
  rewrite getResponseBody_coerced by (rewrite H; apply Z.le_refl).
  fields.
  destruct (truthy_string (m_body m) && truthy _) eqn:Ec.
  - rewrite setReadyState_eq. same_instance. rewrite H.
    cbn [Z.eqb LOADING HEADERS_RECEIVED UNSENT orb].
    rewrite <- app_assoc.
    unfold progress_fired, createEvent;
      cbn [is_progress_event init_loaded init_total app].
    fold (byteLength (nullish (m_body m) "")).
    destruct (m_body m) as [b|]; [|discriminate].
    apply andb_prop in Ec. rewrite or_number_byteLength by apply Ec.
    reflexivity.
  - same_instance; [exact H | now rewrite app_nil_r].
Qed.

(** The instance the third step leaves, whether or not the snapshot could
    be built. *)
Lemma mocked_done_eq (x : Instance) (iso : IsomorphicRequest)
    (m : MockedResponse) :
  readyState x <> DONE ->
  left_by (mocked_done x iso m) =
  set_log (set_readyState x DONE)
    (log x ++ [readystatechange_at x DONE; plain_fired x load DONE;
               plain_fired x loadend DONE]
       ++ match objectToHeaders (nullish (m_headers m) []) with
          | Some headers =>
              [Emitted iso
                 (mkSnapshot (status x) (statusText x) headers (m_body m))]
          | None => []
          end).
Proof.
  intros H. unfold mocked_done. cbv zeta. rewrite setReadyState_eq.
  destruct (objectToHeaders (nullish (m_headers m) [])); cbn [left_by];
    same_instance;
    (destruct (Z.eqb_spec DONE (readyState x)); [congruence|]);
    cbn; rewrite <- ?app_assoc; cbn; rewrite ?app_nil_r; reflexivity.
Qed.

Lemma mocked_done_normal (x : Instance) (iso : IsomorphicRequest)
    (m : MockedResponse) :
  is_normal (mocked_done x iso m) =
  match objectToHeaders (nullish (m_headers m) []) with
  | Some _ => true
  | None => false
  end.
Proof.
  unfold mocked_done. cbv zeta.
  destruct (objectToHeaders (nullish (m_headers m) [])); reflexivity.
Qed.

(** The instance the mocked path ends with when the headers of the
    response are accepted. *)
Lemma on_mocked_eq (x : Instance) (iso : IsomorphicRequest)
    (m : MockedResponse) (hs : Headers) :
  headers_of m = Some hs ->
  on_mocked x iso m =
  set_log
    (set_readyState
       (set_responseText
          (set_response
             (set_responseHeaders
                (set_statusText (set_status x (or_number (m_status m) 200))
                   (or_string (m_statusText m) "OK"))
                hs)
             (coerced (responseType x) hs (m_body m)))
          (Some (or_string (m_body m) "")))
       DONE)
    (log x ++ mocked_trace x iso m hs).
Proof.
  intros Hh. unfold on_mocked, on_mocked_run.
  rewrite (mocked_headers_eq x m Hh). cbn [and_then].
  rewrite mocked_body_eq by reflexivity.
  rewrite mocked_done_eq.
  2:{ cbv zeta. destruct (truthy_string _ && truthy _); fields;
      unfold LOADING, HEADERS_RECEIVED, DONE; lia. }
  cbv zeta. same_instance. unfold mocked_trace, notification. cbv zeta.
  rewrite <- !app_assoc. reflexivity.
Qed.

(** The instance the mocked path is left with when [objectToHeaders]
    throws on the headers of the response: [loadstart] has been fired and
    the status stored, and nothing else has happened. *)
Lemma on_mocked_rejected (x : Instance) (iso : IsomorphicRequest)
    (m : MockedResponse) :
  headers_of m = None ->
  on_mocked_run x iso m =
  Abrupt
    (set_log
       (set_statusText (set_status x (or_number (m_status m) 200))
          (or_string (m_statusText m) "OK"))
       (log x ++ [plain_fired x loadstart (readyState x)])).
Proof.
  intros Hh. unfold on_mocked_run.
  rewrite (mocked_headers_rejected x m Hh). reflexivity.
Qed.

Lemma settled_mocked (x : Instance) (iso : IsomorphicRequest)
    (m : MockedResponse) :
  fst (settled x iso JNull (Some m)) = on_mocked x iso m.
Proof. reflexivity. Qed.

Lemma on_mocked_since (x : Instance) (iso : IsomorphicRequest)
    (m : MockedResponse) (hs : Headers) :
  headers_of m = Some hs ->
  since x (on_mocked x iso m) = mocked_trace x iso m hs.
Proof.
  intros Hh. apply since_app. rewrite (on_mocked_eq x iso m Hh). reflexivity.
Qed.

Lemma on_mocked_rejected_since (x : Instance) (iso : IsomorphicRequest)
    (m : MockedResponse) :
  headers_of m = None ->
  since x (on_mocked x iso m) = [plain_fired x loadstart (readyState x)].
Proof.
  intros Hh. apply since_app. unfold on_mocked.
  rewrite (on_mocked_rejected x iso m Hh). reflexivity.
Qed.

Lemma on_mocked_response (x : Instance) (iso : IsomorphicRequest)
    (m : MockedResponse) (hs : Headers) :
  headers_of m = Some hs ->
  response (on_mocked x iso m) = coerced (responseType x) hs (m_body m).
Proof. intros Hh. rewrite (on_mocked_eq x iso m Hh). reflexivity. Qed.

Lemma notification_fired (iso : IsomorphicRequest) (m : MockedResponse) :
  fired (notification iso m) = []
  /\ fired_events (notification iso m) = [].
Proof.
  unfold notification.
  destruct (objectToHeaders (nullish (m_headers m) [])); split; reflexivity.
Qed.

Lemma fired_app (a b : list Obs) : fired (a ++ b) = fired a ++ fired b.
Proof.
  induction a as [|[name state ev t|r s] a IH]; cbn; [reflexivity| |exact IH].
  now rewrite IH.
Qed.

Lemma fired_events_app (a b : list Obs) :
  fired_events (a ++ b) = fired_events a ++ fired_events b.
Proof.
  induction a as [|[name state ev t|r s] a IH]; cbn; [reflexivity| |exact IH].
  now rewrite IH.
Qed.

(** The events of the mocked path. *)
Lemma mocked_trace_fired (x : Instance) (iso : IsomorphicRequest)
    (m : MockedResponse) (hs : Headers) :
  fired (mocked_trace x iso m hs) =
  (loadstart, readyState x)
  :: (if HEADERS_RECEIVED =? readyState x then []
      else [(readystatechange, HEADERS_RECEIVED)])
  ++ (if truthy_string (m_body m)
         && truthy (coerced (responseType x) hs (m_body m))
      then [(readystatechange, LOADING); (progress, LOADING)] else [])
  ++ [(readystatechange, DONE); (load, DONE); (loadend, DONE)].
Proof.
  unfold mocked_trace. cbv zeta.
  rewrite app_comm_cons, !app_assoc, fired_app.
  rewrite (proj1 (notification_fired iso m)), app_nil_r.
  destruct (HEADERS_RECEIVED =? readyState x);
    destruct (truthy_string (m_body m) && truthy _); reflexivity.
Qed.

(** The [progress] events of the mocked path. *)
Lemma mocked_trace_progress (x : Instance) (iso : IsomorphicRequest)
    (m : MockedResponse) (hs : Headers) :
  progress_events (mocked_trace x iso m hs) =
  if truthy_string (m_body m)
     && truthy (coerced (responseType x) hs (m_body m))
  then [ProgressEvent progress true (byteLength (nullish (m_body m) ""))
          (byteLength (nullish (m_body m) ""))]
  else [].
Proof.
  unfold mocked_trace, progress_events. cbv zeta.
  rewrite app_comm_cons, !app_assoc, fired_events_app.
  rewrite (proj2 (notification_fired iso m)), app_nil_r.
  destruct (HEADERS_RECEIVED =? readyState x);
    destruct (truthy_string (m_body m) && truthy _); reflexivity.
Qed.

Lemma or_string_empty (a : option string) : or_string a "" = nullish a "".
Proof.
  destruct a as [s|]; [|reflexivity]. unfold or_string, nullish.
  destruct (String.eqb_spec s ""); congruence.
Qed.

(** C3, as the code has it. For every mocked response whose headers are
    absent or accepted by [objectToHeaders], the mocked path ends with
    [readyState = DONE], reached by a [readystatechange] that is followed
    by [load] and then [loadend]; when the body is absent or empty, the
    events are [loadstart], the change to [HEADERS_RECEIVED] (unless the
    instance was there already) and these three: the instance does not move
    to [LOADING] and no [progress] is fired. When [objectToHeaders] throws
    on the headers, the exception ends the continuation after [loadstart]:
    [readyState] stays as it was and neither [load] nor [loadend] is
    fired. *)
Theorem mocked_response_reaches_done
    (x : Instance) (iso : IsomorphicRequest) (m : MockedResponse) :
  let x' := fst (settled x iso JNull (Some m)) in
  (m_headers m = None \/ (exists hs, headers_of m = Some hs) ->
     readyState x' = DONE
     /\ (exists before,
           fired (since x x') =
             before
             ++ [(readystatechange, DONE); (load, DONE); (loadend, DONE)])
     /\ (truthy_string (m_body m) = false ->
           fired (since x x') =
             (loadstart, readyState x)
             :: (if HEADERS_RECEIVED =? readyState x then []
                 else [(readystatechange, HEADERS_RECEIVED)])
             ++ [(readystatechange, DONE); (load, DONE); (loadend, DONE)]
           /\ ~ In (readystatechange, LOADING) (fired (since x x'))
           /\ ~ In progress (map fst (fired (since x x')))
           /\ progress_events (since x x') = []))
  /\ (headers_of m = None ->
        is_normal (on_mocked_run x iso m) = false
        /\ fired (since x x') = [(loadstart, readyState x)]
        /\ readyState x' = readyState x).
Proof.
  cbv zeta. rewrite settled_mocked. split.
  - intros Hh.
    assert (Hs : exists hs, headers_of m = Some hs).
    { destruct Hh as [Hn|Hs]; [|exact Hs].
      exists Headers_new. unfold headers_of. now rewrite Hn. }
    destruct Hs as [hs Hs].
    rewrite (on_mocked_since x iso m Hs), mocked_trace_fired,
      mocked_trace_progress.
    split; [rewrite (on_mocked_eq x iso m Hs); reflexivity|]. split.
    + eexists. rewrite app_comm_cons, app_assoc. reflexivity.
    + intros Hb. rewrite Hb. cbn [andb app].
      split; [reflexivity|].
      destruct (HEADERS_RECEIVED =? readyState x); cbn;
        repeat split; try reflexivity; intros H;
        repeat (destruct H as [H|H]; try discriminate H); exact H.
  - intros Hn. rewrite (on_mocked_rejected_since x iso m Hn).
    unfold on_mocked. rewrite (on_mocked_rejected x iso m Hn).
    repeat split.
Qed.

(** C4, as the code has it. For a mocked response with a non-empty body
    whose headers are absent or accepted by [objectToHeaders]: when the
    coerced [response] is truthy, the instance moves to [LOADING] and then
    to [DONE], and exactly one [progress] event is fired, in the state
    [LOADING], whose [loaded] and [total] are the number of bytes of the
    mocked body text; when the coerced [response] is falsy, the instance
    does not move to [LOADING] and no [progress] is fired. The coerced
    [response] is truthy for every response type but ['json']. When
    [objectToHeaders] throws on the headers, there is no [LOADING] and no
    [progress] either. *)
Theorem progress_needs_truthy_response
    (x : Instance) (iso : IsomorphicRequest) (m : MockedResponse)
    (body : string) :
  m_body m = Some body -> body <> "" ->
  let x' := fst (settled x iso JNull (Some m)) in
  (m_headers m = None \/ (exists hs, headers_of m = Some hs) ->
     (truthy (response x') = true ->
        fired (since x x') =
          (loadstart, readyState x)
          :: (if HEADERS_RECEIVED =? readyState x then []
              else [(readystatechange, HEADERS_RECEIVED)])
          ++ [(readystatechange, LOADING); (progress, LOADING);
              (readystatechange, DONE); (load, DONE); (loadend, DONE)]
        /\ progress_events (since x x') =
             [ProgressEvent progress true (byteLength body)
                (byteLength body)])
     /\ (truthy (response x') = false ->
           ~ In (readystatechange, LOADING) (fired (since x x'))
           /\ progress_events (since x x') = [])
     /\ (responseType x <> rt_json -> truthy (response x') = true))
  /\ (headers_of m = None ->
        ~ In (readystatechange, LOADING) (fired (since x x'))
        /\ progress_events (since x x') = []).
Proof.
  intros Hb Hne. cbv zeta. rewrite settled_mocked. split.
  - intros Hh.
    assert (Hs : exists hs, headers_of m = Some hs).
    { destruct Hh as [Hn|Hs]; [|exact Hs].
      exists Headers_new. unfold headers_of. now rewrite Hn. }
    destruct Hs as [hs Hs].
    rewrite (on_mocked_since x iso m Hs), (on_mocked_response x iso m Hs),
      mocked_trace_fired, mocked_trace_progress.
    rewrite Hb. apply truthy_string_iff in Hne. rewrite Hne.
    cbn [andb nullish].
    split; [|split].
    + intros Ht. rewrite Ht. split; reflexivity.
    + intros Ht. rewrite Ht. split; [|reflexivity].
      destruct (HEADERS_RECEIVED =? readyState x); cbn; intros H;
        repeat (destruct H as [H|H]; try discriminate H); exact H.
    + intros Hrt. unfold coerced. cbv zeta. cbn [nullish].
      destruct (responseType x); try reflexivity; try congruence;
        cbn [truthy]; exact Hne.
  - intros Hn. rewrite (on_mocked_rejected_since x iso m Hn).
    split; [|reflexivity].
    cbn. intros [H|H]; [discriminate H|exact H].
Qed.

(** C10, as the code has it. On the mocked path, for a response whose
    headers are absent or accepted by [objectToHeaders], [responseText] is
    the mocked body text (the empty string when the body is absent)
    whatever the response type is, and [response] is the coerced value.
    Under ['blob'] and ['arraybuffer'] [response] is a blob or a byte
    buffer and no string. Under ['json'] it is what [parseJson] makes of
    the text, the value [JSON.parse] gives or the sentinel: a string, as
    [responseText] is, when the text is the JSON literal of a string,
    though not the same text as long as [JSON.parse] gives no text back
    unchanged and the sentinel of [parseJson] is not a string. *)
Theorem responseText_is_raw_body
    (x : Instance) (iso : IsomorphicRequest) (m : MockedResponse) :
  m_headers m = None \/ (exists hs, headers_of m = Some hs) ->
  let x' := fst (settled x iso JNull (Some m)) in
  let text := nullish (m_body m) "" in
  responseText x' = Some text
  /\ (forall hs, headers_of m = Some hs ->
        response x' = coerced (responseType x) hs (m_body m))
  /\ (responseType x = rt_blob ->
        forall hs, headers_of m = Some hs ->
        response x' =
          JBlob text (or_string (Headers_get hs "content-type") "text/plain"))
  /\ (responseType x = rt_arraybuffer ->
        response x' = JBuffer (bufferFrom text))
  /\ (responseType x = rt_blob \/ responseType x = rt_arraybuffer ->
        is_string (response x') = false)
  /\ (responseType x = rt_json ->
        response x' = parseJson text
        /\ (forall v, JSON_parse text = Some v ->
              response x' = v /\ is_string (response x') = is_string v)
        /\ (JSON_parse text = None -> response x' = unparseable)
        /\ (JSON_parse text <> Some (JStr text) ->
            is_string unparseable = false ->
            response x' <> JStr text)).
Proof.
  intros Hh. cbv zeta. rewrite settled_mocked.
  assert (Hs : exists hs, headers_of m = Some hs).
  { destruct Hh as [Hn|Hs]; [|exact Hs].
    exists Headers_new. unfold headers_of. now rewrite Hn. }
  destruct Hs as [hs Hs].
  rewrite (on_mocked_response x iso m Hs).
  split; [rewrite (on_mocked_eq x iso m Hs); cbn; now rewrite or_string_empty|].
  split; [intros hs' E; congruence|].
  unfold coerced. cbv zeta.
  split; [intros -> hs' E; assert (hs' = hs) by congruence; subst;
          reflexivity|].
  split; [intros ->; reflexivity|].
  split; [intros [-> | ->]; reflexivity|].
  intros ->. split; [reflexivity|]. unfold parseJson.
  split; [intros v ->; split; reflexivity|].
  split; [intros ->; reflexivity|].
  - intros Hp Hstr.
    destruct (JSON_parse (nullish (m_body m) "")) as [v|].
    + congruence.
    + intros E. rewrite E in Hstr. discriminate Hstr.
Qed.

(** C8. [getResponseBody] returns a value for every body and every
    response type. Under ['json'] it is what [parseJson] gives: the parsed
    value, or the sentinel [unparseable] when [JSON.parse] fails. Under
    ['blob'] it is a blob of the text, typed with what
    [getResponseHeader('content-type')] returns when that is a non-empty
    string and with [text/plain] when it returns [null]. Under
    ['arraybuffer'] it is the buffer of the bytes of the text. Otherwise it
    is the text itself. An absent body counts as the empty text. *)
Theorem getResponseBody_by_type (x : Instance) (body : option string) :
  let text := nullish body "" in
  (body = None -> text = "")
  /\ (responseType x = rt_json ->
        getResponseBody x body = parseJson text
        /\ (JSON_parse text = None -> getResponseBody x body = unparseable)
        /\ (forall v, JSON_parse text = Some v -> getResponseBody x body = v))
  /\ (responseType x = rt_blob ->
        (forall v, getResponseHeader x "content-type" = Some v -> v <> "" ->
           getResponseBody x body = JBlob text v)
        /\ (getResponseHeader x "content-type" = None ->
            getResponseBody x body = JBlob text "text/plain"))
  /\ (responseType x = rt_arraybuffer ->
        getResponseBody x body = JBuffer (bufferFrom text))
  /\ (responseType x = rt_text \/ responseType x = rt_empty
      \/ responseType x = rt_document ->
        getResponseBody x body = JStr text).
Proof.
  cbv zeta. unfold getResponseBody. cbv zeta.
  split; [intros ->; reflexivity|].
  split.
  { intros ->. unfold parseJson. split; [reflexivity|].
    split; [intros ->; reflexivity|intros v ->; reflexivity]. }
  split.
  { intros ->. split.
    - intros v -> Hv. unfold or_string.
      destruct (String.eqb_spec v ""); [contradiction|reflexivity].
    - intros ->. reflexivity. }
  split; [intros ->; reflexivity|].
  intros [-> | [-> | ->]]; reflexivity.
Qed.

(** ** The failure path *)

Lemma on_exception_in_flight (x : Instance) :
  UNSENT < readyState x < DONE ->
  on_exception x =
  set_log (set_readyState x UNSENT)
    (log x ++ [plain_fired x error (readyState x);
               plain_fired x abort_ev UNSENT]).
Proof.
  intros H. unfold on_exception. cbv zeta.
  rewrite abort_in_flight by exact H.
  same_instance. rewrite <- app_assoc. reflexivity.
Qed.

Lemma on_exception_idle (x : Instance) :
  readyState x <= UNSENT \/ DONE <= readyState x ->
  on_exception x = set_log x (log x ++ [plain_fired x error (readyState x)]).
Proof.
  intros H. unfold on_exception. cbv zeta.
  rewrite abort_idle by exact H. reflexivity.
Qed.

Lemma open_readyState (x : Instance) (method_ : string)
    (url_ : option string) (async_ : option bool)
    (user_ password_ : option string) :
  readyState (open x method_ url_ async_ user_ password_) = OPENED.
Proof.
  unfold open. cbv zeta. rewrite setReadyState_eq.
  destruct url_; reflexivity.
Qed.

Lemma send_readyState (x : Instance) (data_ : option string) :
  readyState (fst (send x data_)) = readyState x.
Proof. reflexivity. Qed.

(** C2, as the code has it. When the resolver fails and the continuation
    of [send] is given the failure, no original request is made and [error]
    is fired. If [readyState] is then strictly between [UNSENT] and [DONE],
    as it is when [send] follows [open], the instance is reset to [UNSENT]
    and [abort] is fired: the events are exactly [error], [abort], neither
    [load] nor [loadend], and [readyState] ends as [UNSENT]. If
    [readyState] is [UNSENT] or [DONE] at that moment, [error] is the only
    event and [readyState] stays as it was. *)
Theorem resolver_failure_events
    (x : Instance) (iso : IsomorphicRequest) (middlewareException : JsValue)
    (mockedResponse : option MockedResponse) :
  truthy middlewareException = true ->
  let x' := fst (settled x iso middlewareException mockedResponse) in
  snd (settled x iso middlewareException mockedResponse) = None
  /\ (UNSENT < readyState x < DONE ->
        fired (since x x') = [(error, readyState x); (abort_ev, UNSENT)]
        /\ readyState x' = UNSENT)
  /\ (readyState x <= UNSENT \/ DONE <= readyState x ->
        fired (since x x') = [(error, readyState x)]
        /\ readyState x' = readyState x)
  /\ (forall x0 method_ url_ async_ user_ password_ data_,
        x = fst (send (open x0 method_ url_ async_ user_ password_) data_) ->
        UNSENT < readyState x < DONE).
Proof.
  intros He. cbv zeta. unfold settled. rewrite He. cbn [fst snd].
  split; [reflexivity|]. split; [|split].
  - intros H. rewrite on_exception_in_flight by exact H.
    split; [|reflexivity].
    erewrite since_app by reflexivity. reflexivity.
  - intros H. rewrite on_exception_idle by exact H. split; [|reflexivity].
    erewrite since_app by reflexivity. reflexivity.
  - intros x0 method_ url_ async_ user_ password_ data_ ->.
    rewrite send_readyState, open_readyState. split; reflexivity.
Qed.

(** C9, as the code has it. A settlement that arrives late is not ignored:
    the continuation of [send] runs on the instance as it is by then. After
    [abort()], and after a new [open(...)], a mocked response (with headers
    that are absent or accepted by [objectToHeaders]) that settles the
    earlier [send] still fires [loadstart], takes the instance to
    [HEADERS_RECEIVED], to [LOADING] with a [progress] when the body and
    the coerced response are truthy, and to [DONE], and fires [load] and
    [loadend]; after the [abort()] of a request in flight this raises
    [readyState] from [UNSENT] again. *)
Theorem late_settlement_still_runs
    (x : Instance) (data_ : option string) (m : MockedResponse)
    (method_ : string) (url_ : option string) (async_ : option bool)
    (user_ password_ : option string) :
  m_headers m = None \/ (exists hs, headers_of m = Some hs) ->
  let x1 := fst (send x data_) in
  let iso := snd (send x data_) in
  let late (y : Instance) := fst (settled y iso JNull (Some m)) in
  let loading (y : Instance) :=
    if truthy_string (m_body m) && truthy (response (late y))
    then [(readystatechange, LOADING); (progress, LOADING)] else [] in
  let runs (y : Instance) :=
    readyState (late y) = DONE
    /\ fired (since y (late y)) =
         (loadstart, readyState y)
         :: (if HEADERS_RECEIVED =? readyState y then []
             else [(readystatechange, HEADERS_RECEIVED)])
         ++ loading y
         ++ [(readystatechange, DONE); (load, DONE); (loadend, DONE)] in
  runs (abort x1)
  /\ runs (open x1 method_ url_ async_ user_ password_)
  /\ fired
       (since (open x1 method_ url_ async_ user_ password_)
          (late (open x1 method_ url_ async_ user_ password_))) =
       [(loadstart, OPENED); (readystatechange, HEADERS_RECEIVED)]
       ++ loading (open x1 method_ url_ async_ user_ password_)
       ++ [(readystatechange, DONE); (load, DONE); (loadend, DONE)]
  /\ (UNSENT < readyState x -> readyState x < DONE ->
        readyState (abort x1) = UNSENT
        /\ fired (since (abort x1) (late (abort x1))) =
             [(loadstart, UNSENT); (readystatechange, HEADERS_RECEIVED)]
             ++ loading (abort x1)
             ++ [(readystatechange, DONE); (load, DONE); (loadend, DONE)]).
Proof.
  intros Hh. cbv zeta.
  assert (Hs : exists hs, headers_of m = Some hs).
  { destruct Hh as [Hn|Hs]; [|exact Hs].
    exists Headers_new. unfold headers_of. now rewrite Hn. }
  destruct Hs as [hs Hs].
  assert (Hruns : forall y,
    readyState (fst (settled y (snd (send x data_)) JNull (Some m))) = DONE
    /\ fired (since y (fst (settled y (snd (send x data_)) JNull (Some m)))) =
         (loadstart, readyState y)
         :: (if HEADERS_RECEIVED =? readyState y then []
             else [(readystatechange, HEADERS_RECEIVED)])
         ++ (if truthy_string (m_body m)
                && truthy
                     (response
                        (fst (settled y (snd (send x data_)) JNull (Some m))))
             then [(readystatechange, LOADING); (progress, LOADING)] else [])
         ++ [(readystatechange, DONE); (load, DONE); (loadend, DONE)]).
  { intros y.
    rewrite settled_mocked, (on_mocked_since y _ m Hs),
      (on_mocked_response y _ m Hs), mocked_trace_fired.
    split; [rewrite (on_mocked_eq y _ m Hs); reflexivity|reflexivity]. }
  split; [apply Hruns|]. split; [apply Hruns|]. split.
  - destruct (Hruns (open (fst (send x data_)) method_ url_ async_ user_
                       password_)) as [_ ->].
    rewrite open_readyState. reflexivity.
  - intros H1 H2.
    assert (Ha : readyState (abort (fst (send x data_))) = UNSENT).
    { rewrite abort_in_flight by (rewrite send_readyState; split; assumption).
      reflexivity. }
    split; [exact Ha|].
    destruct (Hruns (abort (fst (send x data_)))) as [_ ->].
    rewrite Ha. reflexivity.
Qed.

(** ** Listeners *)

Lemma keeps_iff (n : EventName) (l : Handler) (e : EventName * Handler) :
  keeps n l e = true <-> fst e <> n /\ snd e <> l.
Proof.
  unfold keeps.
  destruct (EventName_eqb_spec (fst e) n), (Handler_eqb_spec (snd e) l);
    cbn; split; intros H; try discriminate; try tauto; split; assumption.
Qed.

(** What [removeEventListener] leaves: the entries that differ from the
    arguments in the name and in the listener as well. *)
Lemma removeEventListener_In (x : Instance) (n : EventName) (l : Handler)
    (e : EventName * Handler) :
  In e (_events (removeEventListener x n l)) <->
  In e (_events x) /\ fst e <> n /\ snd e <> l.
Proof.
  unfold removeEventListener. cbn [_events set_events].
  rewrite filter_In, keeps_iff. reflexivity.
Qed.

(** ** The passthrough path *)

Lemma propagate_listeners_fold (l : list (EventName * Handler))
    (request : OriginalRequest) :
  fold_left
    (fun request e => o_addEventListener request (fst e) (Forwarded (snd e)))
    l request =
  mkOriginal (o_method request) (o_url request) (o_async request)
    (o_user request) (o_password request)
    (o_listeners request ++ map (fun e => (fst e, Forwarded (snd e))) l)
    (o_onabort request) (o_onerror request) (o_ontimeout request)
    (o_onload request) (o_onloadstart request) (o_onloadend request)
    (o_onprogress request) (o_onreadystatechange request)
    (o_headers request) (o_timeout request) (o_sent request).
Proof.
  revert request. induction l as [|e l IH]; intros request.
  - cbn. rewrite app_nil_r. destruct request; reflexivity.
  - cbn [fold_left map]. rewrite IH. unfold o_addEventListener.
    cbn. rewrite <- app_assoc. reflexivity.
Qed.

Lemma propagate_headers_fold (l : list (string * string))
    (request : OriginalRequest) :
  fold_left (fun request e => o_setRequestHeader request (fst e) (snd e))
    l request =
  mkOriginal (o_method request) (o_url request) (o_async request)
    (o_user request) (o_password request) (o_listeners request)
    (o_onabort request) (o_onerror request) (o_ontimeout request)
    (o_onload request) (o_onloadstart request) (o_onloadend request)
    (o_onprogress request) (o_onreadystatechange request)
    (o_headers request ++ l) (o_timeout request) (o_sent request).
Proof.
  revert request. induction l as [|[n v] l IH]; intros request.
  - cbn. rewrite app_nil_r. destruct request; reflexivity.
  - cbn [fold_left]. rewrite IH. unfold o_setRequestHeader.
    cbn. rewrite <- app_assoc. reflexivity.
Qed.

(** What the original request has been given when it is sent. *)
Lemma on_passthrough_forwards (x : Instance) :
  let request := on_passthrough x in
  o_onabort request = Some AbortMethod
  /\ o_onerror request = onerror x
  /\ o_ontimeout request = ontimeout x
  /\ o_onload request = onload x
  /\ o_onloadstart request = onloadstart x
  /\ o_onloadend request = onloadend x
  /\ o_onprogress request = onprogress x
  /\ o_onreadystatechange request = onreadystatechange x
  /\ o_listeners request =
       (load, RelayLoad)
       :: map (fun e => (fst e, Forwarded (snd e))) (_events x)
  /\ o_headers request = Headers_raw (_requestHeaders x)
  /\ o_sent request = Some (data x).
Proof.
  cbv zeta. unfold on_passthrough, propagateListeners, propagateHeaders.
  cbv zeta. rewrite propagate_listeners_fold, propagate_headers_fold.
  destruct (nullish (async x) false); cbn; repeat split; reflexivity.
Qed.

End Facts.

(** * Properties of the rest of the class *)

Section RestFacts.
Context `{D : Deps} `{W : !Wire}.

Ltac fields :=
  cbn - [Z.eqb Z.ltb Z.gtb coerced bufferFrom String.eqb truthy byteLength
         or_number or_string app].

Ltac same_instance := apply Instance_ext; fields; try reflexivity.

Lemma since_same (x : Instance) : since x x = [].
Proof. apply since_app. now rewrite app_nil_r. Qed.

(** ** [reset] and [open] *)

Lemma reset_eq (x : Instance) : reset x = set_readyState (cleared x) UNSENT.
Proof.
  unfold reset, cleared. cbv zeta. rewrite setReadyState_eq.
  same_instance. now rewrite Z.eqb_refl, orb_true_r, app_nil_r.
Qed.

(** The instance [open] leaves, before the arguments are stored. *)
Lemma open_eq (x : Instance) (method_ : string) (url_ : option string)
    (async_ : option bool) (user_ password_ : option string) :
  open x method_ url_ async_ user_ password_ =
  let y :=
    set_log (set_readyState (cleared x) OPENED)
      (log x ++ [readystatechange_at x OPENED]) in
  match url_ with
  | None => set_method (set_url y method_) "GET"
  | Some u =>
      set_password
        (set_user
           (set_async (set_method (set_url y u) method_)
              (Some (nullish async_ true)))
           user_)
        password_
  end.
Proof.
  unfold open. cbv zeta. rewrite setReadyState_eq, reset_eq.
  destruct url_; same_instance.
Qed.

(** X1. [trigger] hands the event first to the direct callback of its
    name, when one is set, and then to the listeners registered under that
    name, in the order of their registration; listeners registered under
    another name are passed over. *)
Theorem trigger_callback_then_listeners
    (x : Instance) (added : list (EventName * Handler)) (name : EventName)
    (options : option ProgressEventInit) :
  let x' :=
    fold_left (fun x e => addEventListener x (fst e) (snd e)) added x in
  targets x' name =
    match slot x name with Some callback => [callback] | None => [] end
    ++ listeners_for x name
    ++ map snd (filter (fun e => EventName_eqb (fst e) name) added)
  /\ since x' (trigger x' name options) =
       [Fired name (readyState x) (createEvent name options)
          (targets x' name)].
Proof.
  cbv zeta.
  assert (H : forall added x,
    let x' :=
      fold_left (fun x e => addEventListener x (fst e) (snd e)) added x in
    _events x' = _events x ++ added
    /\ readyState x' = readyState x
    /\ slot x' name = slot x name).
  { clear. induction added as [|e added IH]; intros x; cbv zeta.
    - cbn. now rewrite app_nil_r.
    - cbn [fold_left]. destruct (IH (addEventListener x (fst e) (snd e)))
        as (He & Hr & Hs).
      rewrite He, Hr, Hs. cbn [_events addEventListener set_events].
      rewrite <- app_assoc. destruct e. repeat split. }
  destruct (H added x) as (He & Hr & Hs). split.
  - unfold targets, listeners_for. rewrite Hs, He, filter_app, map_app.
    destruct (slot x name); reflexivity.
  - apply since_app. unfold trigger. cbn [log set_log]. now rewrite Hr.
Qed.

(** X2. [open] always ends in [OPENED] and fires exactly one
    [readystatechange], also when the instance was [OPENED] before. It
    puts the status back to 200 [OK], empties the body sent, the response
    ([null]), its text and document and both header stores, and keeps the
    listeners, the direct callbacks, [responseType], [timeout],
    [withCredentials] and [responseURL]. Given a URL it stores the method,
    the URL, the credentials and the [async] flag, [true] when left out;
    with the URL left out it takes its one argument for the URL, makes the
    method [GET] and leaves [async], [user] and [password] as they
    were. *)
Theorem open_resets_and_announces
    (x : Instance) (method_ : string) (url_ : option string)
    (async_ : option bool) (user_ password_ : option string) :
  let x' := open x method_ url_ async_ user_ password_ in
  readyState x' = OPENED
  /\ since x x' =
       [Fired readystatechange OPENED (EventPolyfill readystatechange)
          (targets x readystatechange)]
  /\ (status x' = 200 /\ statusText x' = "OK" /\ data x' = ""
      /\ response x' = JNull /\ responseText x' = None
      /\ responseXML x' = None
      /\ _requestHeaders x' = Headers_new
      /\ _responseHeaders x' = Headers_new)
  /\ (_events x' = _events x
      /\ (forall name, slot x' name = slot x name)
      /\ responseType x' = responseType x /\ timeout x' = timeout x
      /\ withCredentials x' = withCredentials x
      /\ responseURL x' = responseURL x)
  /\ match url_ with
     | Some u =>
         method x' = method_ /\ url x' = u
         /\ async x' = Some (nullish async_ true)
         /\ user x' = user_ /\ password x' = password_
     | None =>
         method x' = "GET" /\ url x' = method_ /\ async x' = async x
         /\ user x' = user x /\ password x' = password x
     end.
Proof.
  cbv zeta. rewrite open_eq. cbv zeta.
  split; [destruct url_; reflexivity|].
  split; [apply since_app; destruct url_; reflexivity|].
  split; [destruct url_; repeat split|].
  split; [|destruct url_; repeat split].
  destruct url_; repeat split; intros name; destruct name; reflexivity.
Qed.

(** X3. A second [abort()] changes nothing, and neither does [abort()]
    after a mocked response has completed the request, that is, one whose
    headers were absent or accepted by [objectToHeaders]. *)
Theorem abort_idempotent
    (x : Instance) (iso : IsomorphicRequest) (m : MockedResponse) :
  abort (abort x) = abort x
  /\ (m_headers m = None \/ (exists hs, headers_of m = Some hs) ->
      abort (on_mocked x iso m) = on_mocked x iso m).
Proof.
  split.
  - destruct (Z_lt_dec UNSENT (readyState x)) as [H1|H1];
      [destruct (Z_lt_dec (readyState x) DONE) as [H2|H2]|].
    + rewrite (abort_in_flight x (conj H1 H2)).
      apply abort_idle. left. cbn. reflexivity.
    + rewrite (abort_idle x) by (right; lia). apply abort_idle. right. lia.
    + rewrite (abort_idle x) by (left; lia). apply abort_idle. left. lia.
  - intros Hh.
    assert (Hs : exists hs, headers_of m = Some hs).
    { destruct Hh as [Hn|Hs]; [|exact Hs].
      exists Headers_new. unfold headers_of. now rewrite Hn. }
    destruct Hs as [hs Hs].
    apply abort_idle. right. rewrite (on_mocked_eq x iso m Hs). cbn.
    reflexivity.
Qed.

(** ** Response headers *)

(** X4. While [readyState] is below [HEADERS_RECEIVED],
    [getResponseHeader] gives [null] for every name and
    [getAllResponseHeaders] the empty string, whatever the response header
    store holds; so it is after every [open]. After a mocked response has
    completed (its headers were absent or accepted by [objectToHeaders])
    both read the headers of that response. *)
Theorem response_headers_hidden_until_received
    (x : Instance) (name : string) (iso : IsomorphicRequest)
    (m : MockedResponse) (method_ : string) (url_ : option string)
    (async_ : option bool) (user_ password_ : option string) :
  (readyState x < HEADERS_RECEIVED ->
     getResponseHeader x name = None /\ getAllResponseHeaders x = "")
  /\ (getResponseHeader (open x method_ url_ async_ user_ password_) name
        = None
      /\ getAllResponseHeaders (open x method_ url_ async_ user_ password_)
        = "")
  /\ (forall hs, headers_of m = Some hs ->
        getResponseHeader (on_mocked x iso m) name = Headers_get hs name
        /\ getAllResponseHeaders (on_mocked x iso m) = headersToString hs).
Proof.
  assert (Hlow : forall y, readyState y < HEADERS_RECEIVED ->
            getResponseHeader y name = None /\ getAllResponseHeaders y = "").
  { intros y H. unfold getResponseHeader, getAllResponseHeaders.
    destruct (Z.ltb_spec (readyState y) HEADERS_RECEIVED); [|lia].
    split; reflexivity. }
  split; [apply Hlow|]. split.
  - apply Hlow. rewrite open_readyState. reflexivity.
  - intros hs Hs. unfold getResponseHeader, getAllResponseHeaders.
    rewrite (on_mocked_eq x iso m Hs). split; reflexivity.
Qed.

(** ** The observer *)

Lemma emitted_app (a b : list Obs) : emitted (a ++ b) = emitted a ++ emitted b.
Proof.
  induction a as [|[name state ev t|r s] a IH]; cbn; [reflexivity|exact IH|].
  now rewrite IH.
Qed.

Lemma mocked_trace_emitted (x : Instance) (iso : IsomorphicRequest)
    (m : MockedResponse) (hs : Headers) :
  emitted (mocked_trace x iso m hs) =
  match objectToHeaders (nullish (m_headers m) []) with
  | Some headers =>
      [(iso, mkSnapshot (or_number (m_status m) 200)
               (or_string (m_statusText m) "OK") headers (m_body m))]
  | None => []
  end.
Proof.
  unfold mocked_trace, notification. cbv zeta.
  destruct (objectToHeaders (nullish (m_headers m) []));
    destruct (HEADERS_RECEIVED =? readyState x);
    destruct (truthy_string (m_body m) && truthy _); reflexivity.
Qed.

Lemma on_mocked_run_normal (x : Instance) (iso : IsomorphicRequest)
    (m : MockedResponse) :
  is_normal (on_mocked_run x iso m) =
  match headers_of m, objectToHeaders (nullish (m_headers m) []) with
  | Some _, Some _ => true
  | _, _ => false
  end.
Proof.
  destruct (headers_of m) as [hs|] eqn:Hs.
  - unfold on_mocked_run. rewrite (mocked_headers_eq x m Hs).
    cbn [and_then]. apply mocked_done_normal.
  - rewrite (on_mocked_rejected x iso m Hs). reflexivity.
Qed.

Lemma on_mocked_status (x : Instance) (iso : IsomorphicRequest)
    (m : MockedResponse) :
  status (on_mocked x iso m) = or_number (m_status m) 200
  /\ statusText (on_mocked x iso m) = or_string (m_statusText m) "OK".
Proof.
  destruct (headers_of m) as [hs|] eqn:Hs.
  - rewrite (on_mocked_eq x iso m Hs). split; reflexivity.
  - unfold on_mocked. rewrite (on_mocked_rejected x iso m Hs).
    split; reflexivity.
Qed.

Lemma on_exception_since (x : Instance) :
  since x (on_exception x) =
  plain_fired x error (readyState x)
  :: (if (readyState x >? UNSENT) && (readyState x <? DONE)
      then [plain_fired x abort_ev UNSENT] else []).
Proof.
  apply since_app.
  destruct (Z.gtb_spec (readyState x) UNSENT);
    destruct (Z.ltb_spec (readyState x) DONE); cbn [andb];
    try (rewrite on_exception_idle by lia; reflexivity).
  rewrite on_exception_in_flight by lia. reflexivity.
Qed.

(** X5. When the resolver has settled, the observer is notified exactly
    once for a mocked response on which the continuation runs to its end,
    and not at all when [objectToHeaders] throws on the headers of the
    response, for a failure, or when there is no mocked response. For a
    mocked response the instance takes the status and the status text of
    the response, 200 when the status is absent or 0 and [OK] when the text
    is absent or empty, also when the continuation is cut short, and the
    snapshot carries these values with the body of the response. *)
Theorem observer_notified_once_per_mocked_response
    (x : Instance) (iso : IsomorphicRequest) (middlewareException : JsValue)
    (mockedResponse : option MockedResponse) :
  let x' := fst (settled x iso middlewareException mockedResponse) in
  emitted (since x x') =
    (if truthy middlewareException then []
     else match mockedResponse with
          | Some m =>
              match headers_of m, objectToHeaders (nullish (m_headers m) [])
              with
              | Some _, Some headers =>
                  [(iso, mkSnapshot (status x') (statusText x') headers
                           (m_body m))]
              | _, _ => []
              end
          | None => []
          end)
  /\ (forall m, truthy middlewareException = false ->
        mockedResponse = Some m ->
        length (emitted (since x x')) =
          (if is_normal (on_mocked_run x iso m) then 1%nat else 0%nat)
        /\ status x' =
             match m_status m with
             | Some n => if n =? 0 then 200 else n
             | None => 200
             end
        /\ statusText x' =
             match m_statusText m with
             | Some t => if (t =? "")%string then "OK" else t
             | None => "OK"
             end).
Proof.
  cbv zeta.
  assert (Hm : forall m,
    emitted (since x (on_mocked x iso m)) =
    match headers_of m, objectToHeaders (nullish (m_headers m) []) with
    | Some _, Some headers =>
        [(iso, mkSnapshot (status (on_mocked x iso m))
                 (statusText (on_mocked x iso m)) headers (m_body m))]
    | _, _ => []
    end).
  { intros m. destruct (on_mocked_status x iso m) as [-> ->].
    destruct (headers_of m) as [hs|] eqn:Hs.
    - rewrite (on_mocked_since x iso m Hs), mocked_trace_emitted.
      reflexivity.
    - rewrite (on_mocked_rejected_since x iso m Hs). reflexivity. }
  unfold settled.
  destruct (truthy middlewareException).
  - cbn [fst]. rewrite on_exception_since. split; [|discriminate].
    destruct ((readyState x >? UNSENT) && (readyState x <? DONE));
      reflexivity.
  - destruct mockedResponse as [m|]; cbn [fst].
    + split; [apply Hm|].
      intros m' _ E. injection E as <-.
      split; [|apply on_mocked_status].
      rewrite Hm, on_mocked_run_normal.
      destruct (headers_of m);
        destruct (objectToHeaders (nullish (m_headers m) [])); reflexivity.
    + rewrite since_same. split; [reflexivity|discriminate].
Qed.

(** X6. Every event that a settlement, [abort] or [open] fires is handed
    to the direct callback and the listeners the instance had for that
    event when the call began. *)
Theorem events_reach_registered_handlers
    (x : Instance) (iso : IsomorphicRequest) (middlewareException : JsValue)
    (mockedResponse : option MockedResponse) (method_ : string)
    (url_ : option string) (async_ : option bool)
    (user_ password_ : option string) :
  Forall (handed_to x)
    (since x (fst (settled x iso middlewareException mockedResponse)))
  /\ Forall (handed_to x) (since x (abort x))
  /\ Forall (handed_to x)
       (since x (open x method_ url_ async_ user_ password_)).
Proof.
  split; [|split].
  - unfold settled. destruct (truthy middlewareException).
    + cbn [fst]. rewrite on_exception_since.
      destruct ((readyState x >? UNSENT) && (readyState x <? DONE));
        repeat constructor.
    + destruct mockedResponse as [m|]; cbn [fst].
      * destruct (headers_of m) as [hs|] eqn:Hs.
        -- rewrite (on_mocked_since x iso m Hs).
           unfold mocked_trace, notification. cbv zeta.
           destruct (objectToHeaders (nullish (m_headers m) []));
             destruct (HEADERS_RECEIVED =? readyState x);
             destruct (truthy_string (m_body m) && truthy _);
             repeat constructor.
        -- rewrite (on_mocked_rejected_since x iso m Hs).
           repeat constructor.
      * rewrite since_same. constructor.
  - destruct (Z_lt_dec UNSENT (readyState x)) as [H1|H1];
      [destruct (Z_lt_dec (readyState x) DONE) as [H2|H2]|].
    + rewrite (abort_in_flight x (conj H1 H2)).
      erewrite since_app by reflexivity. repeat constructor.
    + rewrite abort_idle by lia. rewrite since_same. constructor.
    + rewrite abort_idle by lia. rewrite since_same. constructor.
  - rewrite open_eq. cbv zeta.
    erewrite since_app by (destruct url_; reflexivity).
    repeat constructor.
Qed.

(** ** The relay of the original request *)

(** The instance the relay leaves: the response headers are those parsed
    from the header block, or those it had when [stringToHeaders]
    throws. *)
Lemma on_original_load_eq (x : Instance) (iso : IsomorphicRequest)
    (o : OriginalResponse) :
  fst (on_original_load x iso o) =
  set_responseHeaders
    (set_log
       (set_readyState
          (set_responseXML
             (set_responseText
                (set_response
                   (set_responseType
                      (set_responseURL
                         (set_statusText (set_status x (r_status o))
                            (r_statusText o))
                         (r_responseURL o))
                      (r_responseType o))
                   (r_response o))
                (Some (r_responseText o)))
             (r_responseXML o))
          DONE)
       (log x ++ if DONE =? readyState x then []
                 else [readystatechange_at x DONE]))
    (nullish (stringToHeaders (r_allResponseHeaders o)) (_responseHeaders x)).
Proof.
  unfold on_original_load. cbv zeta. rewrite setReadyState_eq.
  destruct (stringToHeaders (r_allResponseHeaders o)); cbn [fst nullish];
    same_instance; change (DONE =? UNSENT) with false;
    now rewrite orb_false_r.
Qed.

Lemma on_original_load_snapshot (x : Instance) (iso : IsomorphicRequest)
    (o : OriginalResponse) :
  snd (on_original_load x iso o) =
  match stringToHeaders (r_allResponseHeaders o) with
  | Some hs =>
      Some (mkOriginalSnapshot iso (r_status o) (r_statusText o) hs
              (r_response o))
  | None => None
  end.
Proof.
  unfold on_original_load. cbv zeta.
  destruct (stringToHeaders (r_allResponseHeaders o)); reflexivity.
Qed.

(** X7. When the original request of a passthrough has loaded, the relay
    gives the instance its status, status text, response URL, response
    type, response, response text and document; the instance ends in
    [DONE], with one [readystatechange] unless it was in [DONE] already and
    no other event. When [stringToHeaders] accepts the header block of the
    original request, the instance is then given the headers parsed from
    it, which can be read back, and the observer gets the status, the
    parsed headers and the response of the original request. When
    [stringToHeaders] throws, as on an empty header block, the instance
    keeps the response headers it had and the observer is not
    notified. *)
Theorem original_load_completes_instance
    (x : Instance) (iso : IsomorphicRequest) (o : OriginalResponse) :
  let x' := fst (on_original_load x iso o) in
  readyState x' = DONE
  /\ since x x' =
       (if DONE =? readyState x then []
        else [Fired readystatechange DONE (EventPolyfill readystatechange)
                (targets x readystatechange)])
  /\ (status x' = r_status o /\ statusText x' = r_statusText o
      /\ responseURL x' = r_responseURL o
      /\ responseType x' = r_responseType o
      /\ response x' = r_response o
      /\ responseText x' = Some (r_responseText o)
      /\ responseXML x' = r_responseXML o)
  /\ (forall hs, stringToHeaders (r_allResponseHeaders o) = Some hs ->
        _responseHeaders x' = hs
        /\ getAllResponseHeaders x' = headersToString hs
        /\ (forall name, getResponseHeader x' name = Headers_get hs name)
        /\ snd (on_original_load x iso o) =
             Some (mkOriginalSnapshot iso (r_status o) (r_statusText o) hs
                     (r_response o)))
  /\ (stringToHeaders (r_allResponseHeaders o) = None ->
        _responseHeaders x' = _responseHeaders x
        /\ snd (on_original_load x iso o) = None).
Proof.
  cbv zeta. rewrite on_original_load_eq, on_original_load_snapshot.
  split; [reflexivity|].
  split; [apply since_app; reflexivity|].
  split; [repeat split|].
  split.
  - intros hs ->. repeat split.
  - intros ->. split; reflexivity.
Qed.

(** ** Runs *)

Lemma set_slot_frame (x : Instance) (name : EventName) (v : option Handler) :
  readyState (set_slot x name v) = readyState x
  /\ log (set_slot x name v) = log x.
Proof. destruct name; split; reflexivity. Qed.

Lemma on_exception_readyState (x : Instance) :
  readyState (on_exception x) =
  if (readyState x >? UNSENT) && (readyState x <? DONE) then UNSENT
  else readyState x.
Proof.
  destruct (Z.gtb_spec (readyState x) UNSENT);
    destruct (Z.ltb_spec (readyState x) DONE); cbn [andb];
    try (rewrite on_exception_idle by lia; reflexivity).
  rewrite on_exception_in_flight by lia. reflexivity.
Qed.

Lemma abort_readyState (x : Instance) :
  readyState (abort x) =
  if (readyState x >? UNSENT) && (readyState x <? DONE) then UNSENT
  else readyState x.
Proof.
  destruct (Z.gtb_spec (readyState x) UNSENT);
    destruct (Z.ltb_spec (readyState x) DONE); cbn [andb];
    try (rewrite abort_idle by lia; reflexivity).
  rewrite abort_in_flight by lia. reflexivity.
Qed.

Lemma abort_since (x : Instance) :
  since x (abort x) =
  if (readyState x >? UNSENT) && (readyState x <? DONE)
  then [plain_fired x abort_ev UNSENT] else [].
Proof.
  destruct (Z.gtb_spec (readyState x) UNSENT);
    destruct (Z.ltb_spec (readyState x) DONE); cbn [andb];
    try (rewrite abort_idle by lia; apply since_same).
  rewrite abort_in_flight by lia. apply since_app. reflexivity.
Qed.

Lemma log_since (x x' : Instance) (l : list Obs) :
  log x' = log x ++ l -> log x' = log x ++ since x x'.
Proof. intros H. erewrite since_app by exact H. exact H. Qed.

Lemma abort_log (x : Instance) : log (abort x) = log x ++ since x (abort x).
Proof.
  destruct (Z_lt_dec UNSENT (readyState x)) as [H1|H1];
    [destruct (Z_lt_dec (readyState x) DONE) as [H2|H2]|].
  - eapply log_since. rewrite (abort_in_flight x (conj H1 H2)). reflexivity.
  - rewrite abort_idle by lia. now rewrite since_same, app_nil_r.
  - rewrite abort_idle by lia. now rewrite since_same, app_nil_r.
Qed.

Lemma on_exception_log (x : Instance) :
  log (on_exception x) = log x ++ since x (on_exception x).
Proof.
  destruct (Z_lt_dec UNSENT (readyState x)) as [H1|H1];
    [destruct (Z_lt_dec (readyState x) DONE) as [H2|H2]|].
  - eapply log_since.
    rewrite (on_exception_in_flight x (conj H1 H2)). reflexivity.
  - eapply log_since. rewrite on_exception_idle by lia. reflexivity.
  - eapply log_since. rewrite on_exception_idle by lia. reflexivity.
Qed.

Lemma mocked_trace_well_formed (x : Instance) (iso : IsomorphicRequest)
    (m : MockedResponse) (hs : Headers) :
  forallb well_formed (mocked_trace x iso m hs) = true.
Proof.
  unfold mocked_trace. cbv zeta.
  rewrite app_comm_cons, !app_assoc, forallb_app.
  replace (forallb well_formed (notification iso m)) with true
    by (unfold notification;
        destruct (objectToHeaders (nullish (m_headers m) [])); reflexivity).
  rewrite andb_true_r.
  destruct (truthy_string (m_body m) && truthy _) eqn:Ec.
  - apply andb_prop in Ec. destruct Ec as [Eb _].
    destruct (m_body m) as [b|]; [|discriminate Eb].
    apply truthy_string_iff, byteLength_positive in Eb.
    cbn [nullish].
    destruct (HEADERS_RECEIVED =? readyState x); cbn;
      rewrite Z.eqb_refl; (destruct (Z.ltb_spec 0 (byteLength b)); [|lia]);
      reflexivity.
  - destruct (HEADERS_RECEIVED =? readyState x); reflexivity.
Qed.

(** What a call adds to the log is well formed. *)
Lemma call_log (x : Instance) (c : Call) :
  exists l, log (call x c) = log x ++ l /\ forallb well_formed l = true.
Proof.
  destruct c as [m u a us pw|d|iso e mr|iso o| |n v|n l|n l| |v|v|v|n v];
    cbn [call];
    try (exists []; split; [now rewrite app_nil_r|reflexivity]).
  - rewrite open_eq. cbv zeta. eexists. split.
    + destruct u; reflexivity.
    + reflexivity.
  - unfold settled. destruct (truthy e); [|destruct mr as [m|]]; cbn [fst].
    + eexists. split; [apply on_exception_log|].
      rewrite on_exception_since.
      destruct ((readyState x >? UNSENT) && (readyState x <? DONE));
        reflexivity.
    + destruct (headers_of m) as [hs|] eqn:Hs.
      * eexists. split; [rewrite (on_mocked_eq x iso m Hs); reflexivity|].
        apply mocked_trace_well_formed.
      * eexists. split.
        -- unfold on_mocked. rewrite (on_mocked_rejected x iso m Hs).
           reflexivity.
        -- reflexivity.
    + exists []. split; [now rewrite app_nil_r|reflexivity].
  - rewrite on_original_load_eq. eexists. split; [reflexivity|].
    destruct (DONE =? readyState x); reflexivity.
  - eexists. split; [apply abort_log|]. rewrite abort_since.
    destruct ((readyState x >? UNSENT) && (readyState x <? DONE));
      reflexivity.
  - exists []. rewrite app_nil_r. split; [apply set_slot_frame|reflexivity].
Qed.

Lemma call_resting (x : Instance) (c : Call) :
  resting (readyState x) -> resting (readyState (call x c)).
Proof.
  intros H.
  destruct c as [m u a us pw|d|iso e mr|iso o| |n v|n l|n l| |v|v|v|n v];
    cbn [call]; try exact H.
  - rewrite open_readyState. right. left. reflexivity.
  - unfold settled. destruct (truthy e); [|destruct mr as [m|]]; cbn [fst].
    + rewrite on_exception_readyState.
      destruct ((readyState x >? UNSENT) && (readyState x <? DONE));
        [left; reflexivity|exact H].
    + destruct (headers_of m) as [hs|] eqn:Hs.
      * rewrite (on_mocked_eq x iso m Hs). right. right. reflexivity.
      * unfold on_mocked. rewrite (on_mocked_rejected x iso m Hs). exact H.
    + exact H.
  - rewrite on_original_load_eq. right. right. reflexivity.
  - rewrite abort_readyState.
    destruct ((readyState x >? UNSENT) && (readyState x <? DONE));
      [left; reflexivity|exact H].
  - destruct (set_slot_frame x n v) as [-> _]. exact H.
Qed.

(** X8. Between calls the instance is only ever in [UNSENT], [OPENED] or
    [DONE]: from such a state, whatever is called in whatever order, also
    settlements that arrive late or twice, it is in one of these states
    again. [HEADERS_RECEIVED] and [LOADING] are passed through within a
    mocked response and seen by handlers only. *)
Theorem headers_received_and_loading_are_transient
    (x : Instance) (cs : list Call) :
  resting (readyState x) -> resting (readyState (calls x cs)).
Proof.
  revert x. induction cs as [|c cs IH]; intros x H; [exact H|].
  unfold calls in *. cbn [fold_left]. apply IH, call_resting, H.
Qed.

Lemma calls_log (cs : list Call) (x : Instance) :
  forallb well_formed (log x) = true ->
  forallb well_formed (log (calls x cs)) = true.
Proof.
  revert x. induction cs as [|c cs IH]; intros x H; [exact H|].
  unfold calls in *. cbn [fold_left]. apply IH.
  destruct (call_log x c) as (l & -> & Hl).
  rewrite forallb_app, H, Hl. reflexivity.
Qed.

(** X9. Whatever is called on a new instance, in whatever order, the
    events it fires keep to this: [readystatechange] is never fired with
    [readyState] at [UNSENT]; [abort] is fired only with [readyState] at
    [UNSENT], [load] and [loadend] only at [DONE], [progress] only at
    [LOADING] and with [loaded] equal to [total] and above 0; [timeout] is
    never fired; and every event but [readystatechange] is a progress
    event with [lengthComputable] set. *)
Theorem fired_events_keep_their_states
    (cs : list Call) (name : EventName) (state : Z) (ev : Event)
    (t : list Handler) :
  In (Fired name state ev t) (log (calls new_instance cs)) ->
  name <> timeout_ev
  /\ (name = readystatechange ->
        state <> UNSENT /\ ev = EventPolyfill readystatechange)
  /\ (name = abort_ev -> state = UNSENT)
  /\ (name = load \/ name = loadend -> state = DONE)
  /\ (name = progress ->
        state = LOADING
        /\ exists n, 0 < n /\ ev = ProgressEvent progress true n n)
  /\ (name <> readystatechange /\ name <> progress ->
        ev = ProgressEvent name true 0 0).
Proof.
  intros Hin.
  assert (Hw : well_formed (Fired name state ev t) = true).
  { pose proof (calls_log cs new_instance eq_refl) as H.
    rewrite forallb_forall in H. apply H, Hin. }
  clear Hin.
  assert (Hblank : forall n e, blank_progress n e = true ->
            e = ProgressEvent n true 0 0).
  { intros n e H. destruct e as [ty lc lo to|ty]; [|discriminate H].
    cbn in H. apply andb_prop in H. destruct H as [H Ht].
    apply andb_prop in H. destruct H as [H Hl].
    apply andb_prop in H. destruct H as [Hn Hc].
    destruct (EventName_eqb_spec ty n); [|discriminate].
    apply Z.eqb_eq in Hl, Ht. subst. reflexivity. }
  destruct name; cbn in Hw.
  - destruct ev as [? ? ? ?|[]]; try discriminate Hw.
    assert (state <> UNSENT) by (intros ->; discriminate Hw).
    intuition (try discriminate; try congruence).
  - apply andb_prop in Hw. destruct Hw as [Hs Hb]. apply Z.eqb_eq in Hs.
    apply Hblank in Hb. intuition (try discriminate; try congruence).
  - apply Hblank in Hw. intuition (try discriminate; try congruence).
  - apply andb_prop in Hw. destruct Hw as [Hs Hb]. apply Z.eqb_eq in Hs.
    apply Hblank in Hb. intuition (try discriminate; try congruence).
  - apply andb_prop in Hw. destruct Hw as [Hs Hb]. apply Z.eqb_eq in Hs.
    apply Hblank in Hb. intuition (try discriminate; try congruence).
  - apply Hblank in Hw. intuition (try discriminate; try congruence).
  - destruct ev as [[] [] lo to|]; try discriminate Hw.
    apply andb_prop in Hw. destruct Hw as [Hw Hpos].
    apply andb_prop in Hw. destruct Hw as [Hs He].
    apply Z.eqb_eq in Hs, He. apply Z.ltb_lt in Hpos. subst to.
    assert (exists n, 0 < n /\
              ProgressEvent progress true lo lo =
              ProgressEvent progress true n n)
      by (exists lo; split; [assumption|reflexivity]).
    intuition (try discriminate; try congruence).
  - discriminate Hw.
Qed.

Lemma on_exception_frame (x : Instance) :
  _events (on_exception x) = _events x
  /\ forall name, slot (on_exception x) name = slot x name.
Proof.
  destruct (Z_lt_dec UNSENT (readyState x)) as [H1|H1];
    [destruct (Z_lt_dec (readyState x) DONE) as [H2|H2]|].
  - rewrite (on_exception_in_flight x (conj H1 H2)).
    split; [reflexivity|intros []; reflexivity].
  - rewrite on_exception_idle by lia.
    split; [reflexivity|intros []; reflexivity].
  - rewrite on_exception_idle by lia.
    split; [reflexivity|intros []; reflexivity].
Qed.

Lemma abort_frame (x : Instance) :
  _events (abort x) = _events x
  /\ forall name, slot (abort x) name = slot x name.
Proof.
  destruct (Z_lt_dec UNSENT (readyState x)) as [H1|H1];
    [destruct (Z_lt_dec (readyState x) DONE) as [H2|H2]|].
  - rewrite (abort_in_flight x (conj H1 H2)).
    split; [reflexivity|intros []; reflexivity].
  - rewrite abort_idle by lia. split; reflexivity.
  - rewrite abort_idle by lia. split; reflexivity.
Qed.

Lemma call_frame (x : Instance) (c : Call) :
  registers c = false ->
  _events (call x c) = _events x
  /\ forall name, slot (call x c) name = slot x name.
Proof.
  intros H.
  destruct c as [m u a us pw|d|iso e mr|iso o| |n v|n l|n l| |v|v|v|n v];
    cbn [call]; try discriminate H;
    try (split; [reflexivity|intros []; reflexivity]).
  - rewrite open_eq. cbv zeta.
    destruct u; (split; [reflexivity|intros []; reflexivity]).
  - unfold settled. destruct (truthy e); [|destruct mr as [m|]]; cbn [fst].
    + apply on_exception_frame.
    + destruct (headers_of m) as [hs|] eqn:Hs.
      * rewrite (on_mocked_eq x iso m Hs).
        split; [reflexivity|intros []; reflexivity].
      * unfold on_mocked. rewrite (on_mocked_rejected x iso m Hs).
        split; [reflexivity|intros []; reflexivity].
    + split; reflexivity.
  - rewrite on_original_load_eq.
    split; [reflexivity|intros []; reflexivity].
  - apply abort_frame.
Qed.

(** X10. Listeners and direct callbacks are changed by nothing but
    [addEventListener], [removeEventListener] and an assignment to a
    callback slot: across any other calls, [open] and [abort] and
    settlements among them, every event keeps the handlers it had. *)
Theorem handlers_survive_other_calls (x : Instance) (cs : list Call) :
  forallb (fun c => negb (registers c)) cs = true ->
  _events (calls x cs) = _events x
  /\ (forall name, slot (calls x cs) name = slot x name)
  /\ (forall name, targets (calls x cs) name = targets x name).
Proof.
  revert x. induction cs as [|c cs IH]; intros x H.
  - repeat split.
  - cbn [forallb] in H. apply andb_prop in H. destruct H as [Hc Hcs].
    apply negb_true_iff in Hc.
    destruct (call_frame x c Hc) as (He & Hs).
    destruct (IH (call x c) Hcs) as (He' & Hs' & Ht').
    unfold calls in *. cbn [fold_left].
    split; [congruence|]. split.
    + intros name. now rewrite Hs', Hs.
    + intros name. rewrite Ht'. unfold targets, listeners_for.
      now rewrite Hs, He.
Qed.

(** ** Requests *)

Lemma setRequestHeaders_fold (hs : list (string * string)) (x : Instance) :
  fold_left (fun x h => setRequestHeader x (fst h) (snd h)) hs x =
  set_requestHeaders x
    (fold_left (fun h e => Headers_append h (fst e) (snd e)) hs
       (_requestHeaders x)).
Proof.
  revert x. induction hs as [|h hs IH]; intros x; cbn [fold_left].
  - same_instance.
  - rewrite IH. unfold setRequestHeader. same_instance.
Qed.

(** X11. The request handed to the resolver reflects the calls made since
    [open]: its method and its URL (resolved by the host) are those given
    to [open], its headers are those set after [open], in order, and
    nothing of what was set before, and its body is the argument of
    [send], the empty string when that is absent or empty. [send] itself
    fires no event and leaves the instance [OPENED]. *)
Theorem send_builds_request_from_open
    (x0 : Instance) (method_ u : string) (async_ : option bool)
    (user_ password_ : option string) (hs : list (string * string))
    (data_ : option string) :
  let x1 :=
    fold_left (fun x h => setRequestHeader x (fst h) (snd h)) hs
      (open x0 method_ (Some u) async_ user_ password_) in
  let x2 := fst (send x1 data_) in
  let iso := snd (send x1 data_) in
  iso_method iso = method_
  /\ iso_url iso = URL_resolve u
  /\ iso_headers iso =
       fold_left (fun h e => Headers_append h (fst e) (snd e)) hs Headers_new
  /\ iso_body iso = nullish data_ ""
  /\ data x2 = nullish data_ ""
  /\ readyState x2 = OPENED
  /\ since x1 x2 = [].
Proof.
  cbv zeta. rewrite setRequestHeaders_fold, open_eq. cbv zeta.
  unfold send. cbn [fst snd iso_method iso_url iso_headers iso_body].
  rewrite <- or_string_empty.
  repeat split. apply since_app. cbn. now rewrite app_nil_r.
Qed.

Lemma on_passthrough_opening (x : Instance) :
  let request := on_passthrough x in
  o_method request = method x /\ o_url request = url x
  /\ o_async request = nullish (async x) true
  /\ o_user request = user x /\ o_password request = password x
  /\ o_timeout request = (if nullish (async x) false then timeout x else 0).
Proof.
  cbv zeta. unfold on_passthrough, propagateListeners, propagateHeaders.
  cbv zeta. rewrite propagate_listeners_fold, propagate_headers_fold.
  destruct (nullish (async x) false); cbn; repeat split.
Qed.

(** X12. When the resolver gives no mocked response, the instance is left
    as it is and fires nothing, and an original request is made that was
    opened with the method, the URL and the credentials given to [open],
    asynchronous unless [open] was told otherwise, given the request
    headers set since [open] as the header store lists them, and sent with
    the body of [send]. The [timeout] of the instance is passed on when the
    request is asynchronous and not otherwise. *)
Theorem passthrough_repeats_the_request
    (x0 : Instance) (method_ u : string) (async_ : option bool)
    (user_ password_ : option string) (hs : list (string * string))
    (data_ : option string) :
  let x1 :=
    fold_left (fun x h => setRequestHeader x (fst h) (snd h)) hs
      (open x0 method_ (Some u) async_ user_ password_) in
  let x2 := fst (send x1 data_) in
  let iso := snd (send x1 data_) in
  exists request,
    settled x2 iso JNull None = (x2, Some request)
    /\ o_method request = method_ /\ o_url request = u
    /\ o_async request = nullish async_ true
    /\ o_user request = user_ /\ o_password request = password_
    /\ o_headers request =
         Headers_raw
           (fold_left (fun h e => Headers_append h (fst e) (snd e)) hs
              Headers_new)
    /\ o_sent request = Some (nullish data_ "")
    /\ o_timeout request = (if nullish async_ true then timeout x0 else 0).
Proof.
  cbv zeta. eexists. split; [reflexivity|].
  set (x1 := fold_left (fun x h => setRequestHeader x (fst h) (snd h)) hs
               (open x0 method_ (Some u) async_ user_ password_)).
  assert (E : fst (send x1 data_) =
              set_data
                (set_requestHeaders
                   (open x0 method_ (Some u) async_ user_ password_)
                   (fold_left (fun h e => Headers_append h (fst e) (snd e))
                      hs Headers_new))
                (nullish data_ "")).
  { unfold x1. rewrite setRequestHeaders_fold, open_eq. cbv zeta.
    unfold send. cbn [fst]. rewrite or_string_empty. reflexivity. }
  destruct (on_passthrough_opening (fst (send x1 data_)))
    as (Hm & Hu & Ha & Hus & Hp & Ht).
  destruct (on_passthrough_forwards (fst (send x1 data_)))
    as (_ & _ & _ & _ & _ & _ & _ & _ & _ & Hh & Hs).
  rewrite Hm, Hu, Ha, Hus, Hp, Ht, Hh, Hs, E, open_eq. cbv zeta.
  repeat split.
Qed.

(** X13. After [open] with the URL left out on an instance whose [async]
    flag was never set, a passthrough opens the original request as
    asynchronous, with the one argument as its URL and [GET] as its
    method, but does not pass the [timeout] of the instance on. *)
Theorem passthrough_after_open_without_url
    (x0 : Instance) (u : string) (data_ : option string) :
  async x0 = None ->
  let x := fst (send (open x0 u None None None None) data_) in
  let request := on_passthrough x in
  o_method request = "GET" /\ o_url request = u
  /\ o_async request = true
  /\ o_timeout request = 0.
Proof.
  intros Ha. cbv zeta.
  destruct
    (on_passthrough_opening (fst (send (open x0 u None None None None) data_)))
    as (Hm & Hu & Has & _ & _ & Ht).
  assert (E : async (fst (send (open x0 u None None None None) data_)) = None)
    by (rewrite open_eq; exact Ha).
  rewrite Hm, Hu, Has, Ht, E, open_eq. repeat split.
Qed.

(** ** Removing listeners *)

Lemma filter_keeps_name (n : EventName) (l : Handler)
    (es : list (EventName * Handler)) :
  filter (fun e => EventName_eqb (fst e) n) (filter (keeps n l) es) = [].
Proof.
  induction es as [|e es IH]; [reflexivity|].
  cbn [filter]. unfold keeps at 1.
  destruct (EventName_eqb_spec (fst e) n) as [E|E]; cbn [negb andb];
    [exact IH|].
  destruct (Handler_eqb (snd e) l); cbn [negb]; [exact IH|].
  cbn [filter]. destruct (EventName_eqb_spec (fst e) n); [contradiction|].
  exact IH.
Qed.

Lemma filter_keeps_other (n n' : EventName) (l : Handler)
    (es : list (EventName * Handler)) :
  n' <> n ->
  map snd (filter (fun e => EventName_eqb (fst e) n') (filter (keeps n l) es))
  = filter (fun h => negb (Handler_eqb h l))
      (map snd (filter (fun e => EventName_eqb (fst e) n') es)).
Proof.
  intros Hn. induction es as [|e es IH]; [reflexivity|].
  cbn [filter]. unfold keeps at 1.
  destruct (EventName_eqb_spec (fst e) n') as [E'|E'].
  - destruct (EventName_eqb_spec (fst e) n) as [E|E]; [congruence|].
    cbn [negb andb map filter].
    destruct (Handler_eqb (snd e) l); cbn [negb filter].
    + exact IH.
    + destruct (EventName_eqb_spec (fst e) n'); [|contradiction].
      cbn [map]. now rewrite IH.
  - destruct (negb (EventName_eqb (fst e) n) && negb (Handler_eqb (snd e) l));
      [|exact IH].
    cbn [filter]. destruct (EventName_eqb_spec (fst e) n'); [contradiction|].
    exact IH.
Qed.

(** X14. After [removeEventListener(name, listener)] no listener at all is
    left for [name], so that an event of that name reaches the direct
    callback only, and [listener] is left for no event; the listeners of
    another event are those it had, in the same order, without
    [listener]. Removing a listener just added undoes the addition, and a
    second removal changes nothing. *)
Theorem removeEventListener_clears_the_event
    (x : Instance) (name : EventName) (listener : Handler) :
  let x' := removeEventListener x name listener in
  listeners_for x' name = []
  /\ targets x' name =
       match slot x name with Some callback => [callback] | None => [] end
  /\ (forall other, other <> name ->
        listeners_for x' other =
          filter (fun h => negb (Handler_eqb h listener))
            (listeners_for x other))
  /\ (forall other, ~ In listener (listeners_for x' other))
  /\ removeEventListener (addEventListener x name listener) name listener
       = x'
  /\ removeEventListener x' name listener = x'.
Proof.
  cbv zeta.
  assert (H1 : listeners_for (removeEventListener x name listener) name = []).
  { unfold listeners_for, removeEventListener. cbn [_events set_events].
    now rewrite filter_keeps_name. }
  assert (H2 : forall other, other <> name ->
            listeners_for (removeEventListener x name listener) other =
            filter (fun h => negb (Handler_eqb h listener))
              (listeners_for x other)).
  { intros other Ho. unfold listeners_for, removeEventListener.
    cbn [_events set_events]. now apply filter_keeps_other. }
  split; [exact H1|]. split.
  { unfold targets. rewrite H1.
    replace (slot (removeEventListener x name listener) name)
      with (slot x name) by (destruct name; reflexivity).
    destruct (slot x name); reflexivity. }
  split; [exact H2|]. split.
  { intros other Hin.
    destruct (EventName_eqb_spec other name) as [->|Ho].
    - rewrite H1 in Hin. exact Hin.
    - rewrite (H2 other Ho) in Hin. apply filter_In in Hin.
      destruct Hin as [_ Hin].
      destruct (Handler_eqb_spec listener listener); [discriminate|].
      congruence. }
  split.
  - unfold removeEventListener, addEventListener. same_instance.
    rewrite filter_app. cbn [filter]. unfold keeps at 2. cbn [fst snd].
    destruct (EventName_eqb_spec name name); [|congruence].
    cbn [negb andb]. now rewrite app_nil_r.
  - unfold removeEventListener. same_instance.
    apply forallb_filter_id. apply forallb_forall.
    intros e He. apply filter_In in He. apply He.
Qed.

(** X15. [readyState] goes down only through [open], [abort] and a
    settlement that carries a failure: across any other calls, from a
    state up to [DONE], it is never lower afterwards than before and never
    above [DONE]. *)
Theorem readyState_falls_only_by_open_abort_or_failure
    (x : Instance) (cs : list Call) :
  readyState x <= DONE ->
  forallb (fun c => negb (lowers c)) cs = true ->
  readyState x <= readyState (calls x cs) <= DONE.
Proof.
  revert x. induction cs as [|c cs IH]; intros x Hx H.
  - cbn. lia.
  - cbn [forallb] in H. apply andb_prop in H. destruct H as [Hc Hcs].
    apply negb_true_iff in Hc.
    assert (Hstep : readyState x <= readyState (call x c) <= DONE).
    { destruct c as [m u a us pw|d|iso e mr|iso o| |n v|n l|n l| |v|v|v|n v];
        cbn [call]; try discriminate Hc; try (cbn; lia).
      - unfold settled. cbn [lowers] in Hc. rewrite Hc.
        destruct mr as [m|]; cbn [fst]; [|lia].
        destruct (headers_of m) as [hs|] eqn:Hs.
        + rewrite (on_mocked_eq x iso m Hs). cbn. lia.
        + unfold on_mocked. rewrite (on_mocked_rejected x iso m Hs). cbn.
          lia.
      - rewrite on_original_load_eq. cbn. lia.
      - unfold overrideMimeType. lia.
      - destruct (set_slot_frame x n v) as [-> _]. lia. }
    unfold calls in *. cbn [fold_left].
    specialize (IH (call x c) (proj2 Hstep) Hcs). lia.
Qed.

End RestFacts.

(** * The properties on the sample *)

#[local] Existing Instance Sample.deps.

(** C1. [removeEventListener] as written drops an entry as soon as its
    name or its listener equals the argument: with the one entry
    [(load, f1)] registered, removing [(load, f2)] empties the list, and so
    does removing [(error, f1)]. *)
Theorem removeEventListener_drops_half_matches :
  _events Sample.listening = [(load, UserFn 1)]
  /\ _events (removeEventListener Sample.listening load (UserFn 2)) = []
  /\ _events (removeEventListener Sample.listening error (UserFn 1)) = [].
Proof. repeat split. Qed.

(** C5. On the passthrough path the [onabort] slot of the original request
    is given the instance's [abort] method, not the instance's [onabort]
    callback. *)
Theorem passthrough_onabort_is_abort_method :
  let x := fst (send Sample.configured (Some "b")) in
  let iso := snd (send Sample.configured (Some "b")) in
  onabort x = Some (UserFn 7)
  /\ option_map o_onabort (snd (settled x iso JNull None)) =
       Some (Some AbortMethod)
  /\ option_map o_listeners (snd (settled x iso JNull None)) =
       Some [(load, RelayLoad); (load, Forwarded (UserFn 1))]
  /\ option_map o_headers (snd (settled x iso JNull None)) =
       Some [("X-Token", "1")].
Proof. repeat split. Qed.

(** C2 fails as stated: on an instance that a mocked response has taken to
    [DONE], a further [send] whose resolver throws fires [error] alone and
    leaves [readyState] at [DONE]. *)
Lemma resolver_failure_when_done :
  let x := fst (send Sample.completed None) in
  let iso := snd (send Sample.completed None) in
  let x' := fst (settled x iso Sample.failure None) in
  readyState x = DONE
  /\ fired (since x x') = [(error, DONE)]
  /\ readyState x' = DONE.
Proof. vm_compute. repeat split. Qed.

Lemma resolver_failure_events_witness :
  let x := fst (send Sample.opened None) in
  let iso := snd (send Sample.opened None) in
  let x' := fst (settled x iso Sample.failure None) in
  truthy Sample.failure = true
  /\ UNSENT < readyState x < DONE
  /\ fired (since x x') = [(error, OPENED); (abort_ev, UNSENT)]
  /\ readyState x' = UNSENT.
Proof.
  cbv zeta.
  destruct
    (@resolver_failure_events Sample.deps (fst (send Sample.opened None))
       (snd (send Sample.opened None)) Sample.failure None eq_refl)
    as (_ & Hin & _ & Hopen).
  assert (H : UNSENT < readyState (fst (send Sample.opened None)) < DONE)
    by exact (Hopen new_instance "GET" (Some "/data") None None None None
                eq_refl).
  split; [reflexivity|]. split; [exact H|]. exact (Hin H).
Defined.

(** C4 fails as stated: under ['json'], the non-empty body [0] parses to
    the number 0, which is falsy, and the mocked path goes from
    [HEADERS_RECEIVED] to [DONE] with no [LOADING] and no [progress]. Nor
    is there a [LOADING] or a [progress] for the non-empty body [x] of a
    response with a header name that [objectToHeaders] throws on. *)
Lemma no_progress_for_falsy_json :
  let x := fst (send Sample.opened_json None) in
  let iso := snd (send Sample.opened_json None) in
  let x' := fst (settled x iso JNull (Some Sample.zero)) in
  let y := fst (send Sample.opened None) in
  let y' :=
    fst (settled y (snd (send Sample.opened None)) JNull
           (Some Sample.misnamed)) in
  m_body Sample.zero = Some "0"
  /\ response x' = JNum 0
  /\ fired (since x x') =
       [(loadstart, OPENED); (readystatechange, HEADERS_RECEIVED);
        (readystatechange, DONE); (load, DONE); (loadend, DONE)]
  /\ progress_events (since x x') = []
  /\ m_body Sample.misnamed = Some "x"
  /\ fired (since y y') = [(loadstart, OPENED)]
  /\ progress_events (since y y') = [].
Proof. vm_compute. repeat split. Qed.

Lemma progress_needs_truthy_response_witness :
  let x := fst (send Sample.opened None) in
  let iso := snd (send Sample.opened None) in
  let x' := fst (settled x iso JNull (Some Sample.hello)) in
  m_body Sample.hello = Some "hello"
  /\ "hello" <> ""
  /\ m_headers Sample.hello = None
  /\ truthy (response x') = true
  /\ fired (since x x') =
       [(loadstart, OPENED); (readystatechange, HEADERS_RECEIVED);
        (readystatechange, LOADING); (progress, LOADING);
        (readystatechange, DONE); (load, DONE); (loadend, DONE)]
  /\ progress_events (since x x') = [ProgressEvent progress true 5 5].
Proof.
  cbv zeta.
  assert (Hne : "hello" <> "") by discriminate.
  destruct
    (@progress_needs_truthy_response Sample.deps
       (fst (send Sample.opened None)) (snd (send Sample.opened None))
       Sample.hello "hello" eq_refl Hne)
    as (Haccepted & _).
  destruct (Haccepted (or_introl eq_refl)) as (Hyes & _ & Htext).
  assert (Ht : truthy
                 (response
                    (fst (settled (fst (send Sample.opened None))
                            (snd (send Sample.opened None)) JNull
                            (Some Sample.hello)))) = true)
    by (apply Htext; discriminate).
  split; [reflexivity|]. split; [exact Hne|]. split; [reflexivity|].
  split; [exact Ht|]. exact (Hyes Ht).
Defined.

Lemma readystatechange_once_per_state_reached_witness :
  NoDup (readyState (@new_instance Sample.deps)
         :: [OPENED; HEADERS_RECEIVED; LOADING; DONE])
  /\ ~ In UNSENT [OPENED; HEADERS_RECEIVED; LOADING; DONE]
  /\ fired
       (since (@new_instance Sample.deps)
          (setReadyStates new_instance
             [OPENED; HEADERS_RECEIVED; LOADING; DONE])) =
     [(readystatechange, OPENED); (readystatechange, HEADERS_RECEIVED);
      (readystatechange, LOADING); (readystatechange, DONE)]
  /\ since (@new_instance Sample.deps)
       (setReadyState new_instance OPENED) =
     [Fired readystatechange OPENED (EventPolyfill readystatechange) []].
Proof.
  assert (Hnd : NoDup (readyState (@new_instance Sample.deps)
                       :: [OPENED; HEADERS_RECEIVED; LOADING; DONE])).
  { repeat constructor; cbn; intuition discriminate. }
  assert (Hu : ~ In UNSENT [OPENED; HEADERS_RECEIVED; LOADING; DONE]).
  { cbn; intuition discriminate. }
  destruct
    (@readystatechange_once_per_state_reached Sample.deps new_instance
       [OPENED; HEADERS_RECEIVED; LOADING; DONE])
    as (_ & _ & _ & _ & Hone & Hall).
  split; [exact Hnd|]. split; [exact Hu|]. split; [exact (Hall Hnd Hu)|].
  apply (Hone OPENED); discriminate.
Defined.

Lemma abort_only_in_flight_witness :
  UNSENT < readyState Sample.opened < DONE
  /\ readyState (abort Sample.opened) = UNSENT
  /\ fired (since Sample.opened (abort Sample.opened)) = [(abort_ev, UNSENT)]
  /\ readyState Sample.completed = DONE
  /\ abort Sample.completed = Sample.completed
  /\ abort (@new_instance Sample.deps) = new_instance.
Proof.
  assert (H : UNSENT < readyState Sample.opened < DONE)
    by (vm_compute; split; reflexivity).
  destruct (@abort_only_in_flight Sample.deps Sample.opened)
    as (Hin & _ & _).
  destruct (@abort_only_in_flight Sample.deps Sample.completed)
    as (_ & Hdone & _).
  destruct (@abort_only_in_flight Sample.deps new_instance)
    as (_ & Hnew & _).
  destruct (Hin H) as (Hstate & Hlog).
  split; [exact H|]. split; [exact Hstate|].
  split; [rewrite Hlog; reflexivity|].
  split; [reflexivity|].
  split; [apply Hdone; right; vm_compute; discriminate|].
  apply Hnew; left; vm_compute; discriminate.
Defined.

(** C3 fails as stated: for a mocked response with a header name that
    [objectToHeaders] throws on, the continuation ends after [loadstart];
    the instance stays [OPENED] and fires neither [load] nor [loadend]. *)
Lemma malformed_headers_stop_the_mocked_path :
  let x := fst (send Sample.opened None) in
  let iso := snd (send Sample.opened None) in
  let x' := fst (settled x iso JNull (Some Sample.misnamed)) in
  m_headers Sample.misnamed = Some [("Bad Name", "1")]
  /\ readyState x' = OPENED
  /\ fired (since x x') = [(loadstart, OPENED)].
Proof. vm_compute. repeat split. Qed.

Lemma mocked_response_reaches_done_witness :
  let x := fst (send Sample.opened None) in
  let iso := snd (send Sample.opened None) in
  let x' := fst (settled x iso JNull (Some Sample.bare)) in
  let y' := fst (settled x iso JNull (Some Sample.misnamed)) in
  truthy_string (m_body Sample.bare) = false
  /\ m_headers Sample.bare = None
  /\ headers_of Sample.misnamed = None
  /\ fired (since x y') = [(loadstart, OPENED)]
  /\ readyState y' = OPENED
  /\ readyState x' = DONE
  /\ fired (since x x') =
       [(loadstart, OPENED); (readystatechange, HEADERS_RECEIVED);
        (readystatechange, DONE); (load, DONE); (loadend, DONE)]
  /\ progress_events (since x x') = [].
Proof.
  cbv zeta.
  destruct
    (@mocked_response_reaches_done Sample.deps
       (fst (send Sample.opened None)) (snd (send Sample.opened None))
       Sample.bare)
    as (Haccepted & _).
  destruct (Haccepted (or_introl eq_refl)) as (Hdone & _ & Hempty).
  destruct (Hempty eq_refl) as (Hfired & _ & _ & Hnone).
  destruct
    (@mocked_response_reaches_done Sample.deps
       (fst (send Sample.opened None)) (snd (send Sample.opened None))
       Sample.misnamed)
    as (_ & Hrejected).
  destruct (Hrejected eq_refl) as (_ & Hstart & Hstays).
  split; [reflexivity|]. split; [reflexivity|]. split; [reflexivity|].
  split; [exact Hstart|]. split; [exact Hstays|]. split; [exact Hdone|].
  split; [rewrite Hfired; reflexivity|exact Hnone].
Defined.

Lemma getResponseBody_by_type_witness :
  responseType Sample.opened_json = rt_json
  /\ JSON_parse "{not json" = None
  /\ getResponseBody Sample.opened_json (Some "{not json") = JNull
  /\ JSON_parse "true" = Some (JBool true)
  /\ getResponseBody Sample.opened_json (Some "true") = JBool true
  /\ responseType Sample.completed_blob = rt_blob
  /\ getResponseHeader Sample.completed_blob "content-type" =
       Some "application/json"
  /\ getResponseBody Sample.completed_blob (Some "hi") =
       JBlob "hi" "application/json"
  /\ getResponseHeader Sample.opened_blob "content-type" = None
  /\ getResponseBody Sample.opened_blob None = JBlob "" "text/plain"
  /\ responseType Sample.opened = rt_text
  /\ getResponseBody Sample.opened None = JStr "".
Proof.
  destruct
    (@getResponseBody_by_type Sample.deps Sample.opened_json
       (Some "{not json"))
    as (_ & Hjson & _).
  destruct (Hjson eq_refl) as (_ & Hfail & _).
  destruct
    (@getResponseBody_by_type Sample.deps Sample.opened_json (Some "true"))
    as (_ & Hjson' & _).
  destruct (Hjson' eq_refl) as (_ & _ & Hparsed).
  destruct
    (@getResponseBody_by_type Sample.deps Sample.completed_blob (Some "hi"))
    as (_ & _ & Hblob & _).
  destruct (Hblob eq_refl) as (Htyped & _).
  destruct (@getResponseBody_by_type Sample.deps Sample.opened_blob None)
    as (_ & _ & Hblob' & _).
  destruct (Hblob' eq_refl) as (_ & Hdefault).
  destruct (@getResponseBody_by_type Sample.deps Sample.opened None)
    as (Habsent & _ & _ & _ & Htext).
  split; [reflexivity|]. split; [reflexivity|].
  split; [exact (Hfail eq_refl)|]. split; [reflexivity|].
  split; [exact (Hparsed _ eq_refl)|]. split; [reflexivity|].
  split; [reflexivity|].
  split; [apply Htyped; [reflexivity|discriminate]|].
  split; [reflexivity|].
  split; [exact (Hdefault eq_refl)|]. split; [reflexivity|].
  apply Htext. left. reflexivity.
Defined.

(** C9 fails as stated: [abort()] on a request in flight resets the
    instance to [UNSENT], and the mocked response that settles the earlier
    [send] afterwards still runs the whole mocked path on it, up to
    [DONE]. *)
Lemma aborted_send_still_completes :
  let x := fst (send Sample.opened None) in
  let iso := snd (send Sample.opened None) in
  let aborted := abort x in
  let x' := fst (settled aborted iso JNull (Some Sample.hello)) in
  readyState x = OPENED
  /\ readyState aborted = UNSENT
  /\ readyState x' = DONE
  /\ fired (since aborted x') =
       [(loadstart, UNSENT); (readystatechange, HEADERS_RECEIVED);
        (readystatechange, LOADING); (progress, LOADING);
        (readystatechange, DONE); (load, DONE); (loadend, DONE)].
Proof. vm_compute. repeat split. Qed.

Lemma late_settlement_still_runs_witness :
  let x := fst (send Sample.opened None) in
  let iso := snd (send Sample.opened None) in
  let aborted := abort x in
  let x' := fst (settled aborted iso JNull (Some Sample.hello)) in
  m_headers Sample.hello = None
  /\ UNSENT < readyState Sample.opened
  /\ readyState Sample.opened < DONE
  /\ readyState aborted = UNSENT
  /\ readyState x' = DONE
  /\ fired (since aborted x') =
       [(loadstart, UNSENT); (readystatechange, HEADERS_RECEIVED);
        (readystatechange, LOADING); (progress, LOADING);
        (readystatechange, DONE); (load, DONE); (loadend, DONE)].
Proof.
  cbv zeta.
  assert (H1 : UNSENT < readyState Sample.opened) by reflexivity.
  assert (H2 : readyState Sample.opened < DONE) by reflexivity.
  destruct
    (@late_settlement_still_runs Sample.deps Sample.opened None Sample.hello
       "GET" (Some "/other") None None None (or_introl eq_refl))
    as ((Hdone & _) & _ & _ & Hraise).
  destruct (Hraise H1 H2) as (Hreset & Hfired).
  split; [reflexivity|]. split; [exact H1|]. split; [exact H2|].
  split; [exact Hreset|]. split; [exact Hdone|].
  rewrite Hfired. reflexivity.
Defined.

(** C10 fails as stated: under ['json'], for the body that is the JSON
    literal of the string [hi], [response] is the string [hi] and
    [responseText] the text of the literal: both are strings. *)
Lemma json_string_literal_gives_string_response :
  let x := fst (send Sample.opened_json None) in
  let iso := snd (send Sample.opened_json None) in
  let x' := fst (settled x iso JNull (Some Sample.literal)) in
  responseType x = rt_json
  /\ responseText x' =
       Some (String Sample.quote (append "hi" (String Sample.quote "")))
  /\ response x' = JStr "hi"
  /\ is_string (response x') = true.
Proof. vm_compute. repeat split. Qed.

Lemma responseText_is_raw_body_witness :
  let x := fst (send Sample.opened_json None) in
  let iso := snd (send Sample.opened_json None) in
  let x' := fst (settled x iso JNull (Some Sample.zero)) in
  let y := fst (send Sample.opened_blob None) in
  let y' := fst (settled y (snd (send Sample.opened_blob None)) JNull
                   (Some Sample.typed)) in
  m_headers Sample.zero = None
  /\ headers_of Sample.typed = Some [("Content-Type", "application/json")]
  /\ responseType x = rt_json
  /\ JSON_parse "0" <> Some (JStr "0")
  /\ is_string unparseable = false
  /\ responseText x' = Some "0"
  /\ response x' = JNum 0
  /\ response x' <> JStr "0"
  /\ responseType y = rt_blob
  /\ responseText y' = Some "hello"
  /\ response y' = JBlob "hello" "application/json"
  /\ is_string (response y') = false.
Proof.
  cbv zeta.
  assert (Hp : JSON_parse "0" <> Some (JStr "0"))
    by discriminate.
  assert (Ht : headers_of Sample.typed =
               Some [("Content-Type", "application/json")]) by reflexivity.
  destruct
    (@responseText_is_raw_body Sample.deps
       (fst (send Sample.opened_json None))
       (snd (send Sample.opened_json None)) Sample.zero (or_introl eq_refl))
    as (Htext & _ & _ & _ & _ & Hjson).
  destruct (Hjson eq_refl) as (Hparsed & _ & _ & Hdiffer).
  destruct
    (@responseText_is_raw_body Sample.deps
       (fst (send Sample.opened_blob None))
       (snd (send Sample.opened_blob None)) Sample.typed
       (or_intror (ex_intro _ _ Ht)))
    as (Htext' & _ & Hblob & _ & Hshape & _).
  split; [reflexivity|]. split; [exact Ht|].
  split; [reflexivity|]. split; [exact Hp|]. split; [reflexivity|].
  split; [exact Htext|]. split; [rewrite Hparsed; reflexivity|].
  split; [exact (Hdiffer Hp eq_refl)|]. split; [reflexivity|].
  split; [exact Htext'|].
  split; [rewrite (Hblob eq_refl _ Ht); reflexivity|].
  apply Hshape. left. reflexivity.
Defined.

#[local] Existing Instance SampleWire.wire.

Lemma response_headers_hidden_until_received_witness :
  readyState Sample.opened_blob < HEADERS_RECEIVED
  /\ getResponseHeader Sample.opened_blob "content-type" = None
  /\ getAllResponseHeaders Sample.opened_blob = ""
  /\ headers_of Sample.typed = Some [("Content-Type", "application/json")]
  /\ getResponseHeader Sample.completed_blob "content-type" =
       Some "application/json"
  /\ getAllResponseHeaders Sample.completed_blob =
       append "Content-Type: application/json" SampleWire.crlf.
Proof.
  assert (H : readyState Sample.opened_blob < HEADERS_RECEIVED)
    by reflexivity.
  assert (Ht : headers_of Sample.typed =
               Some [("Content-Type", "application/json")]) by reflexivity.
  destruct
    (@response_headers_hidden_until_received Sample.deps SampleWire.wire
       Sample.opened_blob "content-type"
       (snd (send Sample.opened_blob None)) Sample.typed "GET" None None
       None None)
    as (Hlow & _ & _).
  destruct
    (@response_headers_hidden_until_received Sample.deps SampleWire.wire
       (fst (send Sample.opened_blob None)) "content-type"
       (snd (send Sample.opened_blob None)) Sample.typed "GET" None None
       None None)
    as (_ & _ & Hread).
  destruct (Hlow H) as (Hone & Hall).
  destruct (Hread _ Ht) as (Hget & Hgetall).
  split; [exact H|]. split; [exact Hone|]. split; [exact Hall|].
  split; [exact Ht|]. split; [exact Hget|exact Hgetall].
Defined.

Lemma abort_idempotent_witness :
  let x := fst (send Sample.opened None) in
  let iso := snd (send Sample.opened None) in
  m_headers Sample.hello = None
  /\ abort (on_mocked x iso Sample.hello) = on_mocked x iso Sample.hello
  /\ readyState (on_mocked x iso Sample.hello) = DONE.
Proof.
  cbv zeta.
  destruct
    (@abort_idempotent Sample.deps
       (fst (send Sample.opened None)) (snd (send Sample.opened None))
       Sample.hello)
    as (_ & Hdone).
  split; [reflexivity|]. split; [exact (Hdone (or_introl eq_refl))|].
  reflexivity.
Defined.

Lemma observer_notified_once_per_mocked_response_witness :
  let x := fst (send Sample.opened None) in
  let iso := snd (send Sample.opened None) in
  let x' := fst (settled x iso JNull (Some Sample.zero)) in
  let y' := fst (settled x iso JNull (Some Sample.misnamed)) in
  truthy JNull = false
  /\ m_status Sample.zero = None
  /\ status x' = 200
  /\ statusText x' = "OK"
  /\ length (emitted (since x x')) = 1%nat
  /\ is_normal (on_mocked_run x iso Sample.misnamed) = false
  /\ length (emitted (since x y')) = 0%nat.
Proof.
  cbv zeta.
  destruct
    (@observer_notified_once_per_mocked_response Sample.deps
       (fst (send Sample.opened None)) (snd (send Sample.opened None))
       JNull (Some Sample.zero))
    as (_ & Hstatus).
  destruct (Hstatus Sample.zero eq_refl eq_refl) as (Hone & Hs & Ht).
  destruct
    (@observer_notified_once_per_mocked_response Sample.deps
       (fst (send Sample.opened None)) (snd (send Sample.opened None))
       JNull (Some Sample.misnamed))
    as (_ & Hstatus').
  destruct (Hstatus' Sample.misnamed eq_refl eq_refl) as (Hnone & _ & _).
  split; [reflexivity|]. split; [reflexivity|].
  split; [exact Hs|]. split; [exact Ht|].
  split; [rewrite Hone; reflexivity|]. split; [reflexivity|].
  rewrite Hnone. reflexivity.
Defined.

Lemma original_load_completes_instance_witness :
  let x := fst (send Sample.opened None) in
  let iso := snd (send Sample.opened None) in
  stringToHeaders (r_allResponseHeaders SampleWire.not_found) =
    Some [("Content-Type", "text/plain")]
  /\ getResponseHeader (fst (on_original_load x iso SampleWire.not_found))
       "content-type" = Some "text/plain"
  /\ stringToHeaders (r_allResponseHeaders SampleWire.bare_answer) = None
  /\ readyState (fst (on_original_load x iso SampleWire.bare_answer)) = DONE
  /\ snd (on_original_load x iso SampleWire.bare_answer) = None.
Proof.
  cbv zeta.
  assert (Hs : stringToHeaders (r_allResponseHeaders SampleWire.not_found) =
               Some [("Content-Type", "text/plain")]) by reflexivity.
  destruct
    (@original_load_completes_instance Sample.deps SampleWire.wire
       (fst (send Sample.opened None)) (snd (send Sample.opened None))
       SampleWire.not_found)
    as (_ & _ & _ & Hparsed & _).
  destruct (Hparsed _ Hs) as (_ & _ & Hget & _).
  destruct
    (@original_load_completes_instance Sample.deps SampleWire.wire
       (fst (send Sample.opened None)) (snd (send Sample.opened None))
       SampleWire.bare_answer)
    as (Hdone & _ & _ & _ & Hthrown).
  destruct (Hthrown eq_refl) as (_ & Hnone).
  split; [exact Hs|]. split; [rewrite Hget; reflexivity|].
  split; [reflexivity|]. split; [exact Hdone|exact Hnone].
Defined.

Lemma headers_received_and_loading_are_transient_witness :
  resting (readyState (@new_instance Sample.deps))
  /\ resting
       (readyState
          (calls new_instance
             [call_open "GET" (Some "/data") None None None;
              call_send None;
              call_settled (snd (send Sample.opened None)) JNull
                (Some Sample.hello);
              call_abort])).
Proof.
  assert (H : resting (readyState (@new_instance Sample.deps)))
    by (left; reflexivity).
  split; [exact H|].
  exact (@headers_received_and_loading_are_transient Sample.deps
           SampleWire.wire new_instance _ H).
Defined.

Lemma fired_events_keep_their_states_witness :
  let cs :=
    [call_open "GET" (Some "/data") None None None;
     call_send None;
     call_settled (snd (send Sample.opened None)) JNull (Some Sample.hello)]
  in
  In (Fired progress LOADING (ProgressEvent progress true 5 5) [])
    (log (calls new_instance cs))
  /\ exists n, 0 < n /\
       ProgressEvent progress true 5 5 = ProgressEvent progress true n n.
Proof.
  cbv zeta.
  assert (H : In (Fired progress LOADING (ProgressEvent progress true 5 5) [])
                (log (calls (@new_instance Sample.deps)
                   [call_open "GET" (Some "/data") None None None;
                    call_send None;
                    call_settled (snd (send Sample.opened None)) JNull
                      (Some Sample.hello)]))).
  { apply (nth_error_In _ 4). reflexivity. }
  split; [exact H|].
  destruct
    (@fired_events_keep_their_states Sample.deps SampleWire.wire _ _ _ _ _ H)
    as (_ & _ & _ & _ & Hp & _).
  exact (proj2 (Hp eq_refl)).
Defined.

Lemma handlers_survive_other_calls_witness :
  let cs :=
    [call_open "GET" (Some "/data") None None None;
     call_send None;
     call_abort]
  in
  forallb (fun c => negb (registers c)) cs = true
  /\ _events (calls Sample.listening cs) = [(load, UserFn 1)]
  /\ targets (calls Sample.listening cs) load = [UserFn 1].
Proof.
  cbv zeta.
  destruct
    (@handlers_survive_other_calls Sample.deps SampleWire.wire
       Sample.listening
       [call_open "GET" (Some "/data") None None None;
        call_send None;
        call_abort] eq_refl)
    as (He & _ & Ht).
  split; [reflexivity|]. split; [rewrite He; reflexivity|].
  rewrite Ht. reflexivity.
Defined.

Lemma passthrough_after_open_without_url_witness :
  async (@new_instance Sample.deps) = None
  /\ o_async
       (on_passthrough (fst (send (open new_instance "/data" None None None
                                     None) None))) = true
  /\ o_timeout
       (on_passthrough (fst (send (open new_instance "/data" None None None
                                     None) None))) = 0.
Proof.
  destruct
    (@passthrough_after_open_without_url Sample.deps new_instance "/data"
       None eq_refl)
    as (_ & _ & Ha & Ht).
  split; [reflexivity|]. split; [exact Ha|exact Ht].
Defined.

Lemma removeEventListener_clears_the_event_witness :
  let x :=
    addEventListener (addEventListener Sample.listening load (UserFn 2))
      error (UserFn 2) in
  let x' := removeEventListener x load (UserFn 2) in
  error <> load
  /\ listeners_for x load = [UserFn 1; UserFn 2]
  /\ listeners_for x' load = []
  /\ listeners_for x' error = [].
Proof.
  cbv zeta.
  assert (Hne : error <> load) by discriminate.
  destruct
    (@removeEventListener_clears_the_event Sample.deps
       (addEventListener (addEventListener Sample.listening load (UserFn 2))
          error (UserFn 2))
       load (UserFn 2))
    as (Hsame & _ & Hother & _).
  split; [exact Hne|]. split; [reflexivity|]. split; [exact Hsame|].
  rewrite (Hother error Hne). reflexivity.
Defined.

Lemma readyState_falls_only_by_open_abort_or_failure_witness :
  let cs :=
    [call_send None;
     call_settled (snd (send Sample.opened None)) JNull (Some Sample.hello);
     call_setRequestHeader "X-Late" "1"]
  in
  readyState Sample.opened <= DONE
  /\ forallb (fun c => negb (lowers c)) cs = true
  /\ readyState Sample.opened <= readyState (calls Sample.opened cs) <= DONE.
Proof.
  cbv zeta.
  assert (H : readyState Sample.opened <= DONE) by discriminate.
  split; [exact H|]. split; [reflexivity|].
  exact (@readyState_falls_only_by_open_abort_or_failure Sample.deps
           SampleWire.wire Sample.opened
           [call_send None;
            call_settled (snd (send Sample.opened None)) JNull
              (Some Sample.hello);
            call_setRequestHeader "X-Late" "1"] H eq_refl).
Defined.
